(** * atomix-go client: the log primitive, its session handler and the
      database options, embedded from the Go sources.

    - [database] : pkg/client/database/options.go
    - [headers], [api] : the messages the log client exchanges with a partition
    - [session]  : the interface of the session layer the log is written against
    - [log]      : pkg/client/log/log.go and pkg/client/log/session.go

    Go functions that touch the network or a session are functions in the
    state monad [M W] over a world [W]; a Go result pair [(v, err)] with
    exactly one side set is a sum [res], and a pair whose two sides may both
    be nil is a pair of options. A goroutine is an interaction tree over
    the channel operations it performs. Contexts, which carry deadlines and
    cancellation, are left out. *)

From Stdlib Require Import ZArith List String Bool Lia.
From ITree Require Import ITree ITreeFacts Events.State Events.StateFacts.
Import ListNotations.
Open Scope string_scope.
Open Scope Z_scope.

(** ** Go's [time] package: a [Duration] is an int64 count of nanoseconds. *)
Module time.

Definition Duration := Z.

Definition Nanosecond : Duration := 1.

Definition Microsecond : Duration := 1000 * Nanosecond.

Definition Millisecond : Duration := 1000 * Microsecond.

Definition Second : Duration := 1000 * Millisecond.

Definition Minute : Duration := 60 * Second.

(** A [time.Time] is only copied by the client; [zero] is the value of a
    field left out of a struct literal. *)
Definition Time := Z.

Definition zero : Time := 0.
End time.

(** ** pkg/client/database/options.go *)
Module database.

Record databaseOptions := mkOptions {
  scope : string;
  sessionTimeout : time.Duration
}.

(** [Option] is an interface whose only method, [apply], is unexported:
    its implementations are exactly the two option structs of the package. *)
Inductive Option :=
| scopeOption (scope : string)
| sessionTimeoutOption (timeout : time.Duration).

Definition WithScope (scope : string) : Option := scopeOption scope.

Definition WithSessionTimeout (timeout : time.Duration) : Option :=
  sessionTimeoutOption timeout.

(** [opt.apply(options)] writes through the pointer; the updated struct is
    returned here. *)
Definition apply (opt : Option) (options : databaseOptions) : databaseOptions :=
  match opt with
  | scopeOption s =>
      {| scope := s; sessionTimeout := sessionTimeout options |}
  | sessionTimeoutOption t =>
      {| scope := scope options; sessionTimeout := t |}
  end.

(** The process environment, as [os.Getenv] reads it. *)
Definition Environ := string -> string.

Definition applyOptions (getenv : Environ) (opts : list Option) : databaseOptions :=
  let options := {| scope := getenv "ATOMIX_SCOPE";
                    sessionTimeout := 1 * time.Minute |} in
  fold_left (fun options opt => apply opt options) opts options.

(** Which field an option writes. *)
Inductive Field := FScope | FSessionTimeout.

Definition field (opt : Option) : Field :=
  match opt with
  | scopeOption _ => FScope
  | sessionTimeoutOption _ => FSessionTimeout
  end.

Definition is_timeout (opt : Option) : bool :=
  match opt with sessionTimeoutOption _ => true | _ => false end.

(** The value carried by the last option for a field, in list order, or
    [dflt] when the list has none. *)
Fixpoint last_scope (opts : list Option) (dflt : string) : string :=
  match opts with
  | [] => dflt
  | scopeOption s :: rest => last_scope rest s
  | _ :: rest => last_scope rest dflt
  end.

Fixpoint last_timeout (opts : list Option) (dflt : time.Duration) : time.Duration :=
  match opts with
  | [] => dflt
  | sessionTimeoutOption t :: rest => last_timeout rest t
  | _ :: rest => last_timeout rest dflt
  end.

Definition is_scope (opt : Option) : bool :=
  match opt with scopeOption _ => true | _ => false end.

(** No option of the list satisfies [p]. *)
Definition none_of (p : Option -> bool) (opts : list Option) : bool :=
  forallb (fun o => negb (p o)) opts.

(** The loop of [applyOptions], from any starting options. *)
Definition run (opts : list Option) (o : databaseOptions) : databaseOptions :=
  fold_left (fun options opt => apply opt options) opts o.

(** Process environments that differ in [ATOMIX_SCOPE], or elsewhere. *)
Definition env_unset : Environ := fun _ => EmptyString.

Definition env_prod : Environ :=
  fun key => if String.eqb key "ATOMIX_SCOPE" then "prod" else EmptyString.

Definition env_other : Environ :=
  fun key => if String.eqb key "ATOMIX_SCOPE" then "prod" else "other".

End database.

(** ** Errors and results *)

(** Modelled from the spec: the conditions of the session layer and of the
    router ([SessionClosed], [SessionExpired], [Cancelled],
    [InvalidArgument]) and the failures of the transport, whose
    declarations are not among the files. [errors_New] is the error
    [errors.New] makes from a text. *)
Inductive error :=
| errors_New (text : string)
| SessionClosed
| SessionExpired
| Cancelled
| InvalidArgument
| TransportError (text : string).

Definition res (A : Type) : Type := (A + error)%type.

(** ** The state monad the client code runs in *)

Definition M (W A : Type) : Type := W -> A * W.

Definition mret {W A} (a : A) : M W A := fun w => (a, w).

Definition mbind {W A B} (c : M W A) (k : A -> M W B) : M W B :=
  fun w => let (a, w') := c w in k a w'.

Notation "'let*' x ':=' c 'in' k" := (mbind c (fun x => k))
  (at level 10, x name, c at level 100, k at level 200).

Definition bytes := list Byte.byte.

(** A Go channel of element type [A], named by its identity. *)
Inductive Chan (A : Type) : Type := mkChan (id : nat).

Arguments mkChan {A}.

(** Conversion of an integer to [uint64], as [Index(x)] and [Version(x)] do,
    and to [int64], as [int64(index)] does. *)
Definition to_uint64 (x : Z) : Z := x mod 2 ^ 64.

Definition to_int64 (x : Z) : Z := (x + 2 ^ 63) mod 2 ^ 64 - 2 ^ 63.

(** ** github.com/atomix/api/proto/atomix/headers: what every call carries.
    The package is a dependency; the fields are those the session layer is
    described with. A request names the session, the sequence number of
    the command, the last index the session observed and the streams it
    acknowledges; a response names the session and the index of the
    operation. *)
Module headers.

Module RequestHeader.
Record t := mk {
  SessionID : Z;
  SequenceNumber : Z;
  Index : Z;
  Streams : list (Z * Z)
}.
End RequestHeader.

Module ResponseHeader.
Record t := mk {
  SessionID : Z;
  Index : Z
}.
End ResponseHeader.

End headers.

(** ** github.com/atomix/api/proto/atomix/log: one module per message, with
    the fields the client reads or writes. *)
Module api.

(** The enum is an int32 on the wire: a value without a name of its own is
    [ResponseStatus_other]. *)
Inductive ResponseStatus :=
| ResponseStatus_OK
| ResponseStatus_NOOP
| ResponseStatus_WRITE_LOCK
| ResponseStatus_PRECONDITION_FAILED
| ResponseStatus_other (n : Z).

Inductive EventResponse_Type :=
| EventResponse_NONE
| EventResponse_APPENDED
| EventResponse_REMOVED
| EventResponse_other (n : Z).

Module CreateRequest.
Record t := mk { Header : headers.RequestHeader.t; Timeout : time.Duration }.
End CreateRequest.

Module CreateResponse.
Record t := mk { Header : headers.ResponseHeader.t }.
End CreateResponse.

Module KeepAliveRequest.
Record t := mk { Header : headers.RequestHeader.t }.
End KeepAliveRequest.

Module KeepAliveResponse.
Record t := mk { Header : headers.ResponseHeader.t }.
End KeepAliveResponse.

Module CloseRequest.
Record t := mk { Header : headers.RequestHeader.t; Delete : bool }.
End CloseRequest.

Module CloseResponse.
Record t := mk { Header : headers.ResponseHeader.t }.
End CloseResponse.

Module AppendRequest.
Record t := mk { Header : headers.RequestHeader.t; Value : bytes; Version : Z }.
End AppendRequest.

Module AppendResponse.
Record t := mk {
  Header : headers.ResponseHeader.t;
  Status : ResponseStatus;
  Index : Z;
  PreviousVersion : Z;
  Timestamp : time.Time
}.
End AppendResponse.

Module GetRequest.
Record t := mk { Header : headers.RequestHeader.t; Index : Z }.
End GetRequest.

Module GetResponse.
Record t := mk {
  Header : headers.ResponseHeader.t;
  Index : Z; Value : bytes; Version : Z; Timestamp : time.Time
}.
End GetResponse.

Module FirstEntryRequest.
Record t := mk { Header : headers.RequestHeader.t }.
End FirstEntryRequest.

Module FirstEntryResponse.
Record t := mk {
  Header : headers.ResponseHeader.t;
  Index : Z; Value : bytes; Version : Z; Timestamp : time.Time
}.
End FirstEntryResponse.

Module LastEntryRequest.
Record t := mk { Header : headers.RequestHeader.t }.
End LastEntryRequest.

Module LastEntryResponse.
Record t := mk {
  Header : headers.ResponseHeader.t;
  Index : Z; Value : bytes; Version : Z; Timestamp : time.Time
}.
End LastEntryResponse.

Module PrevEntryRequest.
Record t := mk { Header : headers.RequestHeader.t; Index : Z }.
End PrevEntryRequest.

Module PrevEntryResponse.
Record t := mk {
  Header : headers.ResponseHeader.t;
  Index : Z; Value : bytes; Version : Z; Timestamp : time.Time
}.
End PrevEntryResponse.

Module NextEntryRequest.
Record t := mk { Header : headers.RequestHeader.t; Index : Z }.
End NextEntryRequest.

Module NextEntryResponse.
Record t := mk {
  Header : headers.ResponseHeader.t;
  Index : Z; Value : bytes; Version : Z; Timestamp : time.Time
}.
End NextEntryResponse.

Module ReplaceRequest.
Record t := mk {
  Header : headers.RequestHeader.t;
  Key : string; NewValue : bytes; PreviousVersion : Z
}.
End ReplaceRequest.

Module ReplaceResponse.
Record t := mk {
  Header : headers.ResponseHeader.t;
  Status : ResponseStatus;
  Index : Z; PreviousValue : bytes; PreviousVersion : Z
}.
End ReplaceResponse.

Module RemoveRequest.
Record t := mk { Header : headers.RequestHeader.t; Index : Z; Version : Z }.
End RemoveRequest.

Module RemoveResponse.
Record t := mk {
  Header : headers.ResponseHeader.t;
  Status : ResponseStatus;
  Index : Z; PreviousValue : bytes; PreviousVersion : Z
}.
End RemoveResponse.

Module SizeRequest.
Record t := mk { Header : headers.RequestHeader.t }.
End SizeRequest.

Module SizeResponse.
Record t := mk { Header : headers.ResponseHeader.t; Size_ : Z }.
End SizeResponse.

Module ClearRequest.
Record t := mk { Header : headers.RequestHeader.t }.
End ClearRequest.

Module ClearResponse.
Record t := mk { Header : headers.ResponseHeader.t }.
End ClearResponse.

Module EventRequest.
Record t := mk { Header : headers.RequestHeader.t; Replay : bool }.
End EventRequest.

Module EventResponse.
Record t := mk {
  Header : headers.ResponseHeader.t;
  Type_ : EventResponse_Type;
  Index : Z; Value : bytes; Version : Z; Timestamp : time.Time
}.
End EventResponse.

(** The generated client stubs: one unary call per request kind, and the
    server-streaming [Events] call, whose stream is read with [Recv]. *)
Record LogServiceClient (W EventsClient : Type) := mkLogServiceClient {
  Create : CreateRequest.t -> M W (res CreateResponse.t);
  KeepAlive : KeepAliveRequest.t -> M W (res KeepAliveResponse.t);
  Close : CloseRequest.t -> M W (res CloseResponse.t);
  Append : AppendRequest.t -> M W (res AppendResponse.t);
  Get : GetRequest.t -> M W (res GetResponse.t);
  FirstEntry : FirstEntryRequest.t -> M W (res FirstEntryResponse.t);
  LastEntry : LastEntryRequest.t -> M W (res LastEntryResponse.t);
  PrevEntry : PrevEntryRequest.t -> M W (res PrevEntryResponse.t);
  NextEntry : NextEntryRequest.t -> M W (res NextEntryResponse.t);
  Remove : RemoveRequest.t -> M W (res RemoveResponse.t);
  Size : SizeRequest.t -> M W (res SizeResponse.t);
  Clear : ClearRequest.t -> M W (res ClearResponse.t);
  Events : EventRequest.t -> M W (res EventsClient)
}.

Record IndexedMapServiceClient (W : Type) := mkIndexedMapServiceClient {
  Replace : ReplaceRequest.t -> M W (res ReplaceResponse.t)
}.

End api.

Arguments api.Create {W EventsClient}.
Arguments api.KeepAlive {W EventsClient}.
Arguments api.Close {W EventsClient}.
Arguments api.Append {W EventsClient}.
Arguments api.Get {W EventsClient}.
Arguments api.FirstEntry {W EventsClient}.
Arguments api.LastEntry {W EventsClient}.
Arguments api.PrevEntry {W EventsClient}.
Arguments api.NextEntry {W EventsClient}.
Arguments api.Remove {W EventsClient}.
Arguments api.Size {W EventsClient}.
Arguments api.Clear {W EventsClient}.
Arguments api.Events {W EventsClient}.
Arguments api.Replace {W}.

(** ** google.golang.org/grpc: connections and the stubs built on them.
    [NewLogServiceClient conn] is the stub on a connection; what its calls
    answer is the environment's business. *)
Module grpc.

(** A connection, named by the address it was dialled to. *)
Inductive ClientConn := Dial (target : string).

Class Transport (W : Type) := {
  LogService_EventsClient : Type;
  NewLogServiceClient : ClientConn -> api.LogServiceClient W LogService_EventsClient;
  NewIndexedMapServiceClient : ClientConn -> api.IndexedMapServiceClient W;
  Recv : LogService_EventsClient -> M W (res api.EventResponse.t)
}.

End grpc.

(** ** pkg/client/primitive *)
Module primitive.

(** Modelled from the spec: [Name] of pkg/client/primitive, whose source is
    not among the files: the logical name of a primitive and the namespace
    it belongs to. *)
Module Name.
Record t := mk { Namespace : string; Name : string }.
End Name.

End primitive.

(** ** pkg/client/session: the interface the log is written against.

    The source of the package is not among the files: the log is embedded
    against the signatures its calls show, for any implementation of them.
    A request function receives the connection and the header the session
    prepared, performs one call and returns the response header with the
    response. [DoCommand] and [DoQuery] return the response as
    [interface{}], which the caller asserts back to the type its own
    request function produced: the result type is a parameter here, and so
    is the element type of the channel [DoCommandStream] returns. *)
Module session.

Definition RequestFn (W : Type) `{grpc.Transport W} (A : Type) : Type :=
  grpc.ClientConn -> headers.RequestHeader.t ->
  M W (res (headers.ResponseHeader.t * A)).

(** The handler a primitive gives its session: how to create, keep alive,
    close and delete it on the wire. *)
Record Handler (W Session : Type) := mkHandler {
  Create : Session -> M W (option error);
  KeepAlive : Session -> M W (option error);
  Close : Session -> M W (option error);
  Delete : Session -> M W (option error)
}.

Class Layer (W : Type) `{grpc.Transport W} := {
  Session : Type;
  Partition : Type;
  Option : Type;
  (** the field [s.Timeout] *)
  Timeout : Session -> M W time.Duration;
  New : primitive.Name.t -> Partition -> Handler W Session -> list Option ->
        M W (res Session);
  DoCreate : forall A, Session -> RequestFn W A -> M W (option error);
  DoKeepAlive : forall A, Session -> RequestFn W A -> M W (option error);
  DoClose : forall A, Session -> RequestFn W A -> M W (option error);
  DoCommand : forall A, Session -> RequestFn W A -> M W (res A);
  DoQuery : forall A, Session -> RequestFn W A -> M W (res A);
  DoCommandStream : forall S A, Session ->
    (grpc.ClientConn -> headers.RequestHeader.t -> M W (res S)) ->
    (S -> M W (res (headers.ResponseHeader.t * A))) ->
    M W (res (Chan A));
  (** [s.Close()] and [s.Delete()]; the session calls back the handler it
      was created with, which is passed along here. *)
  SessionClose : Handler W Session -> Session -> M W (option error);
  SessionDelete : Handler W Session -> Session -> M W (option error)
}.

End session.

Arguments session.Create {W Session}.
Arguments session.KeepAlive {W Session}.
Arguments session.Close {W Session}.
Arguments session.Delete {W Session}.
Arguments session.DoCreate {W _ _ A}.
Arguments session.DoKeepAlive {W _ _ A}.
Arguments session.DoClose {W _ _ A}.
Arguments session.DoCommand {W _ _ A}.
Arguments session.DoQuery {W _ _ A}.
Arguments session.DoCommandStream {W _ _ S A}.

(** ** pkg/client/util: the partition router. *)
Module util.

(** Modelled from the spec: [GetPartitionIndex] of pkg/client/util, whose
    source is not among the files. The name is hashed to a non-negative
    integer and reduced modulo the partition count; a partition count that
    is not positive is an [InvalidArgument]. The hash function itself is a
    parameter. *)
Definition GetPartitionIndex (hash : string -> N) (name : string) (partitions : Z)
  : res Z :=
  if partitions <=? 0 then inr InvalidArgument
  else inl (Z.of_N (hash name) mod partitions).

(** The index the router gives a primitive among [n] partitions, as a
    position in the partition list. *)
Definition route (hash : string -> N) (name : primitive.Name.t) (n : nat) : nat :=
  Z.to_nat (Z.of_N (hash (primitive.Name.Name name)) mod Z.of_nat n).

End util.

(** What a call does: it returns, or it panics. *)
Inductive outcome (A : Type) : Type :=
| Returns (a : A)
| Panics (text : string).

Arguments Returns {A}.
Arguments Panics {A}.

(** ** pkg/client/log/log.go and pkg/client/log/session.go *)
Module log.

(** [type Index uint64], [type Version uint64] *)
Definition Index := Z.

Definition Version := Z.

Module Entry.
Record t := mk {
  Index : log.Index;
  Version : log.Version;
  Value : bytes;
  Timestamp : time.Time
}.
End Entry.

(** [type EventType string] *)
Definition EventType := string.

Definition EventNone : EventType := EmptyString.

Definition EventAppended : EventType := "appended".

Definition EventRemoved : EventType := "removed".

Module Event.
Record t := mk {
  Type_ : EventType;
  Entry : option Entry.t
}.
End Event.

(** The option interfaces of the package: each option may edit the request
    before the call and the response after it. The hooks write through
    pointers; here they return the edited message. *)
Record GetOption := mkGetOption {
  beforeGet : api.GetRequest.t -> api.GetRequest.t;
  afterGet : api.GetResponse.t -> api.GetResponse.t
}.

Record RemoveOption := mkRemoveOption {
  beforeRemove : api.RemoveRequest.t -> api.RemoveRequest.t;
  afterRemove : api.RemoveResponse.t -> api.RemoveResponse.t
}.

Record ReplaceOption := mkReplaceOption {
  beforeReplace : api.ReplaceRequest.t -> api.ReplaceRequest.t;
  afterReplace : api.ReplaceResponse.t -> api.ReplaceResponse.t
}.

Record WatchOption := mkWatchOption {
  beforeWatch : api.EventRequest.t -> api.EventRequest.t;
  afterWatch : api.EventResponse.t -> api.EventResponse.t
}.

(** [for i := range opts { opts[i].before(request) }] *)
Definition applyAll {O A : Type} (hook : O -> A -> A) (opts : list O) (a : A) : A :=
  fold_left (fun a opt => hook opt a) opts a.

(** [indexedMap.Replace] builds the entry of the indexed map, which has a
    key next to the fields of a log entry. *)
Module KeyedEntry.
Record t := mk {
  Index : log.Index;
  Key : string;
  Value : bytes;
  Version : log.Version;
  Timestamp : time.Time
}.
End KeyedEntry.

Definition status_eqb (a b : api.ResponseStatus) : bool :=
  match a, b with
  | api.ResponseStatus_OK, api.ResponseStatus_OK => true
  | api.ResponseStatus_NOOP, api.ResponseStatus_NOOP => true
  | api.ResponseStatus_WRITE_LOCK, api.ResponseStatus_WRITE_LOCK => true
  | api.ResponseStatus_PRECONDITION_FAILED, api.ResponseStatus_PRECONDITION_FAILED => true
  | api.ResponseStatus_other n, api.ResponseStatus_other m => Z.eqb n m
  | _, _ => false
  end.

(** The goroutine [Watch] starts receives from the stream of its session
    and sends to, then closes, the channel of its caller. A receive in a
    [range] loop yields the next value, or nothing once the channel is
    closed and drained. *)
Variant rangeE : Type -> Type :=
| StreamRecv (stream : Chan api.EventResponse.t) : rangeE (option api.EventResponse.t).

Variant chanE : Type -> Type :=
| ChSend (ch : Chan Event.t) (e : Event.t) : chanE unit
| ChClose (ch : Chan Event.t) : chanE unit.

Definition goroutine : Type := itree (rangeE +' chanE) unit.

(** The [go] statement. *)
Class Runtime (W : Type) := {
  go : goroutine -> M W unit
}.

Section Log.
Context {W : Type} `{L : session.Layer W} {R : Runtime W}.
Variable hash : string -> N.

(** *** session.go: the handler of a log session *)

Definition createFn (timeout : time.Duration) : session.RequestFn W api.CreateResponse.t :=
  fun conn header =>
    let request := {| api.CreateRequest.Header := header;
                      api.CreateRequest.Timeout := timeout |} in
    let client := grpc.NewLogServiceClient conn in
    let* r := api.Create client request in
    match r with
    | inr err => mret (inr err)
    | inl response => mret (inl (api.CreateResponse.Header response, response))
    end.

Definition handler_Create (s : session.Session) : M W (option error) :=
  let* timeout := session.Timeout s in
  session.DoCreate s (createFn timeout).

Definition keepAliveFn : session.RequestFn W api.KeepAliveResponse.t :=
  fun conn header =>
    let request := {| api.KeepAliveRequest.Header := header |} in
    let client := grpc.NewLogServiceClient conn in
    let* r := api.KeepAlive client request in
    match r with
    | inr err => mret (inr err)
    | inl response => mret (inl (api.KeepAliveResponse.Header response, response))
    end.

Definition handler_KeepAlive (s : session.Session) : M W (option error) :=
  session.DoKeepAlive s keepAliveFn.

(** The request function of [sessionHandler.Close]; [Delete] is left out of
    the struct literal and so has its zero value. *)
Definition closeFn : session.RequestFn W api.CloseResponse.t :=
  fun conn header =>
    let request := {| api.CloseRequest.Header := header;
                      api.CloseRequest.Delete := false |} in
    let client := grpc.NewLogServiceClient conn in
    let* r := api.Close client request in
    match r with
    | inr err => mret (inr err)
    | inl response => mret (inl (api.CloseResponse.Header response, response))
    end.

Definition handler_Close (s : session.Session) : M W (option error) :=
  session.DoClose s closeFn.

(** The request function of [sessionHandler.Delete]. *)
Definition deleteFn : session.RequestFn W api.CloseResponse.t :=
  fun conn header =>
    let request := {| api.CloseRequest.Header := header;
                      api.CloseRequest.Delete := true |} in
    let client := grpc.NewLogServiceClient conn in
    let* r := api.Close client request in
    match r with
    | inr err => mret (inr err)
    | inl response => mret (inl (api.CloseResponse.Header response, response))
    end.

Definition handler_Delete (s : session.Session) : M W (option error) :=
  session.DoClose s deleteFn.

(** What the two handlers have in common: a request function with the
    delete flag as a parameter. *)
Definition closeWith (delete : bool) : session.RequestFn W api.CloseResponse.t :=
  fun conn header =>
    let request := {| api.CloseRequest.Header := header;
                      api.CloseRequest.Delete := delete |} in
    let client := grpc.NewLogServiceClient conn in
    let* r := api.Close client request in
    match r with
    | inr err => mret (inr err)
    | inl response => mret (inl (api.CloseResponse.Header response, response))
    end.

Definition sessionHandler : session.Handler W session.Session :=
  {| session.Create := handler_Create;
     session.KeepAlive := handler_KeepAlive;
     session.Close := handler_Close;
     session.Delete := handler_Delete |}.

(** *** log.go *)

Record log := mkLog {
  name : primitive.Name.t;
  session : session.Session
}.

Definition newLog (name : primitive.Name.t) (partition : session.Partition)
    (opts : list session.Option) : M W (res log) :=
  let* r := session.New name partition sessionHandler opts in
  match r with
  | inr err => mret (inr err)
  | inl sess => mret (inl {| name := name; session := sess |})
  end.

Definition Name (l : log) : primitive.Name.t := name l.

Definition appendFn (value : bytes) : session.RequestFn W api.AppendResponse.t :=
  fun conn header =>
    let client := grpc.NewLogServiceClient conn in
    let request := {| api.AppendRequest.Header := header;
                      api.AppendRequest.Value := value;
                      api.AppendRequest.Version := -1 |} in
    let* r := api.Append client request in
    match r with
    | inr err => mret (inr err)
    | inl response => mret (inl (api.AppendResponse.Header response, response))
    end.

Definition Append (l : log) (value : bytes) : M W (option Entry.t * option error) :=
  let* r := session.DoCommand (session l) (appendFn value) in
  match r with
  | inr err => mret (None, Some err)
  | inl response =>
      if status_eqb (api.AppendResponse.Status response) api.ResponseStatus_OK then
        mret (Some {| Entry.Index := to_uint64 (api.AppendResponse.Index response);
                      Entry.Value := value;
                      Entry.Version :=
                        to_uint64 (headers.ResponseHeader.Index
                                     (api.AppendResponse.Header response));
                      Entry.Timestamp := time.zero |}, None)
      else if status_eqb (api.AppendResponse.Status response)
                api.ResponseStatus_PRECONDITION_FAILED then
        mret (None, Some (errors_New "write condition failed"))
      else if status_eqb (api.AppendResponse.Status response)
                api.ResponseStatus_WRITE_LOCK then
        mret (None, Some (errors_New "write lock failed"))
      else
        mret (Some {| Entry.Index := to_uint64 (api.AppendResponse.Index response);
                      Entry.Value := value;
                      Entry.Version :=
                        to_uint64 (api.AppendResponse.PreviousVersion response);
                      Entry.Timestamp := api.AppendResponse.Timestamp response |}, None)
  end.

(** The request function of [Get]. *)
Definition getFn (index : Z) (opts : list GetOption) : session.RequestFn W api.GetResponse.t :=
  fun conn header =>
    let client := grpc.NewLogServiceClient conn in
    let request := {| api.GetRequest.Header := header; api.GetRequest.Index := index |} in
    let request := applyAll beforeGet opts request in
    let* r := api.Get client request in
    match r with
    | inr err => mret (inr err)
    | inl response =>
        let response := applyAll afterGet opts response in
        mret (inl (api.GetResponse.Header response, response))
    end.

Definition Get (l : log) (index : Z) (opts : list GetOption) : M W (option Entry.t * option error) :=
  let* r := session.DoQuery (session l) (getFn index opts) in
  match r with
  | inr err => mret (None, Some err)
  | inl response =>
      if negb (Z.eqb (api.GetResponse.Version response) 0) then
        mret (Some {| Entry.Index := to_uint64 (api.GetResponse.Index response);
                      Entry.Value := api.GetResponse.Value response;
                      Entry.Version := to_uint64 (api.GetResponse.Version response);
                      Entry.Timestamp := api.GetResponse.Timestamp response |}, None)
      else
        mret (None, None)
  end.

(** The request function of [GetIndex]: the index goes through [int64(index)]. *)
Definition getIndexFn (index : Index) (opts : list GetOption) : session.RequestFn W api.GetResponse.t :=
  fun conn header =>
    let client := grpc.NewLogServiceClient conn in
    let request := {| api.GetRequest.Header := header;
                      api.GetRequest.Index := to_int64 index |} in
    let request := applyAll beforeGet opts request in
    let* r := api.Get client request in
    match r with
    | inr err => mret (inr err)
    | inl response =>
        let response := applyAll afterGet opts response in
        mret (inl (api.GetResponse.Header response, response))
    end.

Definition GetIndex (l : log) (index : Index) (opts : list GetOption) : M W (option Entry.t * option error) :=
  let* r := session.DoQuery (session l) (getIndexFn index opts) in
  match r with
  | inr err => mret (None, Some err)
  | inl response =>
      if negb (Z.eqb (api.GetResponse.Version response) 0) then
        mret (Some {| Entry.Index := to_uint64 (api.GetResponse.Index response);
                      Entry.Value := api.GetResponse.Value response;
                      Entry.Version := to_uint64 (api.GetResponse.Version response);
                      Entry.Timestamp := api.GetResponse.Timestamp response |}, None)
      else
        mret (None, None)
  end.

(** The request function of [FirstIndex] and [FirstEntry]. *)
Definition firstEntryFn : session.RequestFn W api.FirstEntryResponse.t :=
  fun conn header =>
    let client := grpc.NewLogServiceClient conn in
    let request := {| api.FirstEntryRequest.Header := header |} in
    let* r := api.FirstEntry client request in
    match r with
    | inr err => mret (inr err)
    | inl response =>
        mret (inl (api.FirstEntryResponse.Header response, response))
    end.

(** The request function of [LastIndex] and [LastEntry]. *)
Definition lastEntryFn : session.RequestFn W api.LastEntryResponse.t :=
  fun conn header =>
    let client := grpc.NewLogServiceClient conn in
    let request := {| api.LastEntryRequest.Header := header |} in
    let* r := api.LastEntry client request in
    match r with
    | inr err => mret (inr err)
    | inl response =>
        mret (inl (api.LastEntryResponse.Header response, response))
    end.

(** The request function of [PrevIndex] and [PrevEntry]. *)
Definition prevEntryFn (index : Index) : session.RequestFn W api.PrevEntryResponse.t :=
  fun conn header =>
    let client := grpc.NewLogServiceClient conn in
    let request := {| api.PrevEntryRequest.Header := header;
                      api.PrevEntryRequest.Index := to_int64 index |} in
    let* r := api.PrevEntry client request in
    match r with
    | inr err => mret (inr err)
    | inl response =>
        mret (inl (api.PrevEntryResponse.Header response, response))
    end.

(** The request function of [NextIndex] and [NextEntry]. *)
Definition nextEntryFn (index : Index) : session.RequestFn W api.NextEntryResponse.t :=
  fun conn header =>
    let client := grpc.NewLogServiceClient conn in
    let request := {| api.NextEntryRequest.Header := header;
                      api.NextEntryRequest.Index := to_int64 index |} in
    let* r := api.NextEntry client request in
    match r with
    | inr err => mret (inr err)
    | inl response =>
        mret (inl (api.NextEntryResponse.Header response, response))
    end.

Definition FirstIndex (l : log) : M W (Index * option error) :=
  let* r := session.DoQuery (session l) firstEntryFn in
  match r with
  | inr err => mret (0, Some err)
  | inl response =>
      if negb (Z.eqb (api.FirstEntryResponse.Version response) 0) then
        mret (to_uint64 (api.FirstEntryResponse.Index response), None)
      else
        mret (0, None)
  end.

Definition LastIndex (l : log) : M W (Index * option error) :=
  let* r := session.DoQuery (session l) lastEntryFn in
  match r with
  | inr err => mret (0, Some err)
  | inl response =>
      if negb (Z.eqb (api.LastEntryResponse.Version response) 0) then
        mret (to_uint64 (api.LastEntryResponse.Index response), None)
      else
        mret (0, None)
  end.

Definition PrevIndex (l : log) (index : Index) : M W (Index * option error) :=
  let* r := session.DoQuery (session l) (prevEntryFn index) in
  match r with
  | inr err => mret (0, Some err)
  | inl response =>
      if negb (Z.eqb (api.PrevEntryResponse.Version response) 0) then
        mret (to_uint64 (api.PrevEntryResponse.Index response), None)
      else
        mret (0, None)
  end.

Definition NextIndex (l : log) (index : Index) : M W (Index * option error) :=
  let* r := session.DoQuery (session l) (nextEntryFn index) in
  match r with
  | inr err => mret (0, Some err)
  | inl response =>
      if negb (Z.eqb (api.NextEntryResponse.Version response) 0) then
        mret (to_uint64 (api.NextEntryResponse.Index response), None)
      else
        mret (0, None)
  end.

Definition FirstEntry (l : log) : M W (option Entry.t * option error) :=
  let* r := session.DoQuery (session l) firstEntryFn in
  match r with
  | inr err => mret (None, Some err)
  | inl response =>
      (* past the check above [err] is nil; the last return hands it back *)
      let err : option error := None in
      if negb (Z.eqb (api.FirstEntryResponse.Version response) 0) then
        mret (Some {| Entry.Index := to_uint64 (api.FirstEntryResponse.Index response);
                      Entry.Value := api.FirstEntryResponse.Value response;
                      Entry.Version := to_uint64 (api.FirstEntryResponse.Version response);
                      Entry.Timestamp := api.FirstEntryResponse.Timestamp response |}, None)
      else
        mret (None, err)
  end.

Definition LastEntry (l : log) : M W (option Entry.t * option error) :=
  let* r := session.DoQuery (session l) lastEntryFn in
  match r with
  | inr err => mret (None, Some err)
  | inl response =>
      (* past the check above [err] is nil; the last return hands it back *)
      let err : option error := None in
      if negb (Z.eqb (api.LastEntryResponse.Version response) 0) then
        mret (Some {| Entry.Index := to_uint64 (api.LastEntryResponse.Index response);
                      Entry.Value := api.LastEntryResponse.Value response;
                      Entry.Version := to_uint64 (api.LastEntryResponse.Version response);
                      Entry.Timestamp := api.LastEntryResponse.Timestamp response |}, None)
      else
        mret (None, err)
  end.

Definition PrevEntry (l : log) (index : Index) : M W (option Entry.t * option error) :=
  let* r := session.DoQuery (session l) (prevEntryFn index) in
  match r with
  | inr err => mret (None, Some err)
  | inl response =>
      (* past the check above [err] is nil; the last return hands it back *)
      let err : option error := None in
      if negb (Z.eqb (api.PrevEntryResponse.Version response) 0) then
        mret (Some {| Entry.Index := to_uint64 (api.PrevEntryResponse.Index response);
                      Entry.Value := api.PrevEntryResponse.Value response;
                      Entry.Version := to_uint64 (api.PrevEntryResponse.Version response);
                      Entry.Timestamp := time.zero |}, None)
      else
        mret (None, err)
  end.

Definition NextEntry (l : log) (index : Index) : M W (option Entry.t * option error) :=
  let* r := session.DoQuery (session l) (nextEntryFn index) in
  match r with
  | inr err => mret (None, Some err)
  | inl response =>
      (* past the check above [err] is nil; the last return hands it back *)
      let err : option error := None in
      if negb (Z.eqb (api.NextEntryResponse.Version response) 0) then
        mret (Some {| Entry.Index := to_uint64 (api.NextEntryResponse.Index response);
                      Entry.Value := api.NextEntryResponse.Value response;
                      Entry.Version := to_uint64 (api.NextEntryResponse.Version response);
                      Entry.Timestamp := api.NextEntryResponse.Timestamp response |}, None)
      else
        mret (None, err)
  end.

(** [indexedMap.Replace]: the receiver is an indexed map, which holds a
    session as a log does. *)
Record indexedMap := mkIndexedMap {
  map_session : session.Session
}.

Definition replaceFn (key : string) (value : bytes) (opts : list ReplaceOption)
  : session.RequestFn W api.ReplaceResponse.t :=
  fun conn header =>
    let client := grpc.NewIndexedMapServiceClient conn in
    let request := {| api.ReplaceRequest.Header := header;
                      api.ReplaceRequest.Key := key;
                      api.ReplaceRequest.NewValue := value;
                      api.ReplaceRequest.PreviousVersion := 0 |} in
    let request := applyAll beforeReplace opts request in
    let* r := api.Replace client request in
    match r with
    | inr err => mret (inr err)
    | inl response =>
        let response := applyAll afterReplace opts response in
        mret (inl (api.ReplaceResponse.Header response, response))
    end.

Definition Replace (m : indexedMap) (key : string) (value : bytes)
    (opts : list ReplaceOption) : M W (option KeyedEntry.t * option error) :=
  let* r := session.DoCommand (map_session m) (replaceFn key value opts) in
  match r with
  | inr err => mret (None, Some err)
  | inl response =>
      if status_eqb (api.ReplaceResponse.Status response) api.ResponseStatus_OK then
        mret (Some {| KeyedEntry.Index := to_uint64 (api.ReplaceResponse.Index response);
                      KeyedEntry.Key := key;
                      KeyedEntry.Value := value;
                      KeyedEntry.Version :=
                        to_uint64 (headers.ResponseHeader.Index
                                     (api.ReplaceResponse.Header response));
                      KeyedEntry.Timestamp := time.zero |}, None)
      else if status_eqb (api.ReplaceResponse.Status response)
                api.ResponseStatus_PRECONDITION_FAILED then
        mret (None, Some (errors_New "write condition failed"))
      else if status_eqb (api.ReplaceResponse.Status response)
                api.ResponseStatus_WRITE_LOCK then
        mret (None, Some (errors_New "write lock failed"))
      else
        mret (None, None)
  end.

Definition removeFn (index : Z) (opts : list RemoveOption)
  : session.RequestFn W api.RemoveResponse.t :=
  fun conn header =>
    let client := grpc.NewLogServiceClient conn in
    let request := {| api.RemoveRequest.Header := header;
                      api.RemoveRequest.Index := index;
                      api.RemoveRequest.Version := 0 |} in
    let request := applyAll beforeRemove opts request in
    let* r := api.Remove client request in
    match r with
    | inr err => mret (inr err)
    | inl response =>
        let response := applyAll afterRemove opts response in
        mret (inl (api.RemoveResponse.Header response, response))
    end.

Definition Remove (l : log) (index : Z) (opts : list RemoveOption)
  : M W (option Entry.t * option error) :=
  let* r := session.DoCommand (session l) (removeFn index opts) in
  match r with
  | inr err => mret (None, Some err)
  | inl response =>
      if status_eqb (api.RemoveResponse.Status response) api.ResponseStatus_OK then
        mret (Some {| Entry.Index := to_uint64 (api.RemoveResponse.Index response);
                      Entry.Value := api.RemoveResponse.PreviousValue response;
                      Entry.Version :=
                        to_uint64 (api.RemoveResponse.PreviousVersion response);
                      Entry.Timestamp := time.zero |}, None)
      else if status_eqb (api.RemoveResponse.Status response)
                api.ResponseStatus_PRECONDITION_FAILED then
        mret (None, Some (errors_New "write condition failed"))
      else if status_eqb (api.RemoveResponse.Status response)
                api.ResponseStatus_WRITE_LOCK then
        mret (None, Some (errors_New "write lock failed"))
      else
        mret (None, None)
  end.

Definition sizeFn : session.RequestFn W api.SizeResponse.t :=
  fun conn header =>
    let client := grpc.NewLogServiceClient conn in
    let request := {| api.SizeRequest.Header := header |} in
    let* r := api.Size client request in
    match r with
    | inr err => mret (inr err)
    | inl response => mret (inl (api.SizeResponse.Header response, response))
    end.

Definition Len (l : log) : M W (Z * option error) :=
  let* r := session.DoQuery (session l) sizeFn in
  match r with
  | inr err => mret (0, Some err)
  | inl response => mret (api.SizeResponse.Size_ response, None)
  end.

Definition clearFn : session.RequestFn W api.ClearResponse.t :=
  fun conn header =>
    let client := grpc.NewLogServiceClient conn in
    let request := {| api.ClearRequest.Header := header |} in
    let* r := api.Clear client request in
    match r with
    | inr err => mret (inr err)
    | inl response => mret (inl (api.ClearResponse.Header response, response))
    end.

Definition Clear (l : log) : M W (option error) :=
  let* r := session.DoCommand (session l) clearFn in
  match r with
  | inr err => mret (Some err)
  | inl _ => mret None
  end.

(** [New]: [partitions[i]] panics when [i] is out of range. *)
Definition New (name : primitive.Name.t) (partitions : list session.Partition)
    (opts : list session.Option) : M W (outcome (res log)) :=
  match util.GetPartitionIndex hash (primitive.Name.Name name)
          (Z.of_nat (List.length partitions)) with
  | inr err => mret (Returns (inr err))
  | inl i =>
      match (if i <? 0 then None else nth_error partitions (Z.to_nat i)) with
      | None => mret (Panics "index out of range")
      | Some partition =>
          let* r := newLog name partition opts in
          mret (Returns r)
      end
  end.

(** The two functions [Watch] hands to [DoCommandStream]: the one that
    opens the stream and the one that receives from it. *)
Definition watchOpenFn (opts : list WatchOption)
  : grpc.ClientConn -> headers.RequestHeader.t -> M W (res grpc.LogService_EventsClient) :=
  fun conn header =>
    let client := grpc.NewLogServiceClient conn in
    let request := {| api.EventRequest.Header := header;
                      api.EventRequest.Replay := false |} in
    let request := applyAll beforeWatch opts request in
    api.Events client request.

Definition watchRecvFn (opts : list WatchOption)
  : grpc.LogService_EventsClient ->
    M W (res (headers.ResponseHeader.t * api.EventResponse.t)) :=
  fun responses =>
    let* r := grpc.Recv responses in
    match r with
    | inr err => mret (inr err)
    | inl response =>
        let response := applyAll afterWatch opts response in
        mret (inl (api.EventResponse.Header response, response))
    end.

(** The event written for one response: [t] starts as the zero value of
    [EventType] and the switch has no default case. *)
Definition watchEvent (response : api.EventResponse.t) : Event.t :=
  let t : EventType := EmptyString in
  let t :=
    match api.EventResponse.Type_ response with
    | api.EventResponse_NONE => EventNone
    | api.EventResponse_APPENDED => EventAppended
    | api.EventResponse_REMOVED => EventRemoved
    | _ => t
    end in
  {| Event.Type_ := t;
     Event.Entry :=
       Some {| Entry.Index := to_uint64 (api.EventResponse.Index response);
               Entry.Value := api.EventResponse.Value response;
               Entry.Version := to_uint64 (api.EventResponse.Version response);
               Entry.Timestamp := api.EventResponse.Timestamp response |} |}.

(** [for event := range stream { ... ch <- &Event{...} }] *)
Definition watchLoop (stream : Chan api.EventResponse.t) (ch : Chan Event.t)
  : itree (rangeE +' chanE) unit :=
  ITree.iter (fun _ : unit =>
    ITree.bind (trigger (StreamRecv stream)) (fun event =>
    match event with
    | None => Ret (inr tt)
    | Some response =>
        ITree.bind (trigger (ChSend ch (watchEvent response))) (fun _ =>
        Ret (inl tt))
    end)) tt.

(** The goroutine: the loop, then the deferred [close(ch)]. *)
Definition watchGoroutine (stream : Chan api.EventResponse.t) (ch : Chan Event.t)
  : goroutine :=
  ITree.bind (watchLoop stream ch) (fun _ => trigger (ChClose ch)).

Definition Watch (l : log) (ch : Chan Event.t) (opts : list WatchOption)
  : M W (option error) :=
  let* r := session.DoCommandStream (session l) (watchOpenFn opts) (watchRecvFn opts) in
  match r with
  | inr err => mret (Some err)
  | inl stream =>
      let* _ := go (watchGoroutine stream ch) in
      mret None
  end.

Definition Close (l : log) : M W (option error) :=
  session.SessionClose sessionHandler (session l).

Definition Delete (l : log) : M W (option error) :=
  session.SessionDelete sessionHandler (session l).

(** A caller of the log: the commands, queries and watches it may issue,
    and the error each call hands back. *)
Inductive Op :=
| OpAppend (value : bytes)
| OpGet (index : Z) (opts : list GetOption)
| OpGetIndex (index : Index) (opts : list GetOption)
| OpFirstIndex
| OpLastIndex
| OpPrevIndex (index : Index)
| OpNextIndex (index : Index)
| OpFirstEntry
| OpLastEntry
| OpPrevEntry (index : Index)
| OpNextEntry (index : Index)
| OpRemove (index : Z) (opts : list RemoveOption)
| OpLen
| OpClear
| OpWatch (ch : Chan Event.t) (opts : list WatchOption).

Definition errOf {A : Type} (c : M W (A * option error)) : M W (option error) :=
  let* r := c in mret (snd r).

Definition call (l : log) (op : Op) : M W (option error) :=
  match op with
  | OpAppend value => errOf (Append l value)
  | OpGet index opts => errOf (Get l index opts)
  | OpGetIndex index opts => errOf (GetIndex l index opts)
  | OpFirstIndex => errOf (FirstIndex l)
  | OpLastIndex => errOf (LastIndex l)
  | OpPrevIndex index => errOf (PrevIndex l index)
  | OpNextIndex index => errOf (NextIndex l index)
  | OpFirstEntry => errOf (FirstEntry l)
  | OpLastEntry => errOf (LastEntry l)
  | OpPrevEntry index => errOf (PrevEntry l index)
  | OpNextEntry index => errOf (NextEntry l index)
  | OpRemove index opts => errOf (Remove l index opts)
  | OpLen => errOf (Len l)
  | OpClear => Clear l
  | OpWatch ch opts => Watch l ch opts
  end.


End Log.
End log.

(** ** The session layer, modelled

    The session layer of pkg/client/session and the partitions of
    pkg/client/primitive, whose sources are not among the files, as the
    specification of the client describes them. Time is not part of the
    model: the keepalive driver is the flag that says whether it runs, and
    a retry waits for nothing. *)
Module model.

(** Modelled from the spec: the lifecycle of a [Session] of
    pkg/client/session. A session walks through Unopened, Opening, Open,
    Closing and Closed, or ends Deleted. *)
Inductive State := Unopened | Opening | Open | Closing | Closed | Deleted.

(** Modelled from the spec: [Partition] of pkg/client/primitive: its
    ordinal among the partitions of the client and its connection. *)
Record Partition := mkPartition {
  ID : Z;
  Conn : grpc.ClientConn
}.

(** Modelled from the spec: the options of a session: its timeout and the
    bound on the attempts of a call. *)
Inductive Option :=
| WithTimeout (timeout : time.Duration)
| WithRetries (attempts : nat).

(** Modelled from the spec: the [Session] struct of pkg/client/session: the
    identifier the server assigned, the name and partition the session is
    bound to, its timeout, its place in the lifecycle, the sequence number
    of its last command, the last index it observed, the table of its
    streams with the last sequence received on each, and whether its
    keepalive driver runs. *)
Record Sess := mkSess {
  sessionID : Z;
  name : primitive.Name.t;
  partition : Partition;
  timeout : time.Duration;
  retries : nat;
  state : State;
  sequence : Z;
  lastIndex : Z;
  streams : list (Z * Z);
  keepalive : bool
}.

(** The world: the sessions of the client, the goroutines it started, the
    channels it made and the state of the network. *)
Record World (Net : Type) := mkWorld {
  sessions : list Sess;
  goroutines : list log.goroutine;
  chans : nat;
  net : Net
}.

Arguments mkWorld {Net}.
Arguments sessions {Net}.
Arguments goroutines {Net}.
Arguments chans {Net}.
Arguments net {Net}.

Definition set_state (st : State) (sd : Sess) : Sess :=
  mkSess (sessionID sd) (name sd) (partition sd) (timeout sd) (retries sd)
         st (sequence sd) (lastIndex sd) (streams sd) (keepalive sd).

Definition set_sequence (n : Z) (sd : Sess) : Sess :=
  mkSess (sessionID sd) (name sd) (partition sd) (timeout sd) (retries sd)
         (state sd) n (lastIndex sd) (streams sd) (keepalive sd).

Definition set_keepalive (b : bool) (sd : Sess) : Sess :=
  mkSess (sessionID sd) (name sd) (partition sd) (timeout sd) (retries sd)
         (state sd) (sequence sd) (lastIndex sd) (streams sd) b.

Definition set_streams (l : list (Z * Z)) (sd : Sess) : Sess :=
  mkSess (sessionID sd) (name sd) (partition sd) (timeout sd) (retries sd)
         (state sd) (sequence sd) (lastIndex sd) l (keepalive sd).

(** The session keeps the highest index it has seen. *)
Definition observe_index (index : Z) (sd : Sess) : Sess :=
  mkSess (sessionID sd) (name sd) (partition sd) (timeout sd) (retries sd)
         (state sd) (sequence sd) (Z.max (lastIndex sd) index) (streams sd)
         (keepalive sd).

Definition created (rh : headers.ResponseHeader.t) (sd : Sess) : Sess :=
  mkSess (headers.ResponseHeader.SessionID rh) (name sd) (partition sd)
         (timeout sd) (retries sd) (state sd) (sequence sd)
         (headers.ResponseHeader.Index rh) (streams sd) (keepalive sd).

Definition blank : Sess :=
  mkSess 0 (primitive.Name.mk EmptyString EmptyString)
         (mkPartition 0 (grpc.Dial EmptyString)) 0 0 Unopened 0 0 [] false.

Fixpoint replace_nth (n : nat) (sd : Sess) (l : list Sess) : list Sess :=
  match l, n with
  | [], _ => []
  | _ :: rest, O => sd :: rest
  | x :: rest, S n' => x :: replace_nth n' sd rest
  end.

(** A session is named by its place in the store; a name without a session
    reads as a blank unopened one and cannot be written. *)
Definition get {Net} (s : nat) (w : World Net) : Sess := nth s (sessions w) blank.

Definition put {Net} (s : nat) (sd : Sess) (w : World Net) : World Net :=
  mkWorld (replace_nth s sd (sessions w)) (goroutines w) (chans w) (net w).

Definition modify {Net} (s : nat) (f : Sess -> Sess) (w : World Net) : World Net :=
  put s (f (get s w)) w.

Definition header_of (sd : Sess) (seq : Z) : headers.RequestHeader.t :=
  {| headers.RequestHeader.SessionID := sessionID sd;
     headers.RequestHeader.SequenceNumber := seq;
     headers.RequestHeader.Index := lastIndex sd;
     headers.RequestHeader.Streams := streams sd |}.

(** Failures of the transport are the ones worth another attempt. *)
Definition retriable (err : error) : bool :=
  match err with
  | TransportError _ => true
  | _ => false
  end.

Definition is_closed (st : State) : bool :=
  match st with Closed => true | _ => false end.

Fixpoint configure (opts : list Option) (sd : Sess) : Sess :=
  match opts with
  | [] => sd
  | WithTimeout d :: rest =>
      configure rest
        (mkSess (sessionID sd) (name sd) (partition sd) d (retries sd)
                (state sd) (sequence sd) (lastIndex sd) (streams sd) (keepalive sd))
  | WithRetries n :: rest =>
      configure rest
        (mkSess (sessionID sd) (name sd) (partition sd) (timeout sd) n
                (state sd) (sequence sd) (lastIndex sd) (streams sd) (keepalive sd))
  end.

(** A call on the network, seen from the world: it touches the network and
    nothing else. *)
Definition on_net {Net A} (c : M Net A) : M (World Net) A :=
  fun w =>
    let (a, n) := c (net w) in
    (a, mkWorld (sessions w) (goroutines w) (chans w) n).

Section Model.
Context {Net : Type} {T : grpc.Transport Net}.

#[export] Instance transport : grpc.Transport (World Net) := {|
  grpc.LogService_EventsClient := @grpc.LogService_EventsClient Net T;
  grpc.NewLogServiceClient := fun conn =>
    let c := grpc.NewLogServiceClient conn in
    {| api.Create := fun r => on_net (api.Create c r);
       api.KeepAlive := fun r => on_net (api.KeepAlive c r);
       api.Close := fun r => on_net (api.Close c r);
       api.Append := fun r => on_net (api.Append c r);
       api.Get := fun r => on_net (api.Get c r);
       api.FirstEntry := fun r => on_net (api.FirstEntry c r);
       api.LastEntry := fun r => on_net (api.LastEntry c r);
       api.PrevEntry := fun r => on_net (api.PrevEntry c r);
       api.NextEntry := fun r => on_net (api.NextEntry c r);
       api.Remove := fun r => on_net (api.Remove c r);
       api.Size := fun r => on_net (api.Size c r);
       api.Clear := fun r => on_net (api.Clear c r);
       api.Events := fun r => on_net (api.Events c r) |};
  grpc.NewIndexedMapServiceClient := fun conn =>
    let c := grpc.NewIndexedMapServiceClient conn in
    {| api.Replace := fun r => on_net (api.Replace c r) |};
  grpc.Recv := fun responses => on_net (grpc.Recv responses)
|}.

(** Modelled from the spec: the retry policy of the executor of
    pkg/client/session. One call is sent again with the same header while
    the transport fails, the budget lasts and the session has not been
    closed meanwhile. *)
Fixpoint attempt {A : Type} (budget : nat) (s : nat) (call : M (World Net) (res A))
  : M (World Net) (res A) :=
  fun w =>
    if is_closed (state (get s w)) then (inr SessionClosed, w)
    else
      let (r, w') := call w in
      match r with
      | inl a => (inl a, w')
      | inr err =>
          if retriable err then
            match budget with
            | O => (inr err, w')
            | S budget' => attempt budget' s call w'
            end
          else (inr err, w')
      end.

(** Modelled from the spec: [DoCreate], [DoKeepAlive] and [DoClose] of
    pkg/client/session. The create call is not retried and records the
    identifier and index of the response; a keepalive carries the current
    sequence number and changes nothing; the close call is issued once. *)
Definition DoCreate (A : Type) (s : nat) (f : session.RequestFn (World Net) A)
  : M (World Net) (option error) :=
  fun w =>
    let sd := get s w in
    let (r, w') := f (Conn (partition sd)) (header_of sd 0) w in
    match r with
    | inr err => (Some err, w')
    | inl (rh, _) => (None, modify s (created rh) w')
    end.

Definition DoKeepAlive (A : Type) (s : nat) (f : session.RequestFn (World Net) A)
  : M (World Net) (option error) :=
  fun w =>
    let sd := get s w in
    let (r, w') :=
      attempt (retries sd) s (f (Conn (partition sd)) (header_of sd (sequence sd))) w in
    match r with
    | inr err => (Some err, w')
    | inl (rh, _) => (None, w')
    end.

Definition DoClose (A : Type) (s : nat) (f : session.RequestFn (World Net) A)
  : M (World Net) (option error) :=
  fun w =>
    let sd := get s w in
    let (r, w') := f (Conn (partition sd)) (header_of sd (sequence sd)) w in
    match r with
    | inr err => (Some err, w')
    | inl _ => (None, w')
    end.

(** Modelled from the spec: [DoCommand] of pkg/client/session. On a Closed
    session it fails with [SessionClosed] before anything is sent.
    Otherwise the command takes the next sequence number, is sent with it,
    and on success the session observes the index of the response. *)
Definition DoCommand (A : Type) (s : nat) (f : session.RequestFn (World Net) A)
  : M (World Net) (res A) :=
  fun w =>
    let sd := get s w in
    if is_closed (state sd) then (inr SessionClosed, w)
    else
      let seq := sequence sd + 1 in
      let w1 := put s (set_sequence seq sd) w in
      let (r, w2) :=
        attempt (retries sd) s (f (Conn (partition sd)) (header_of sd seq)) w1 in
      match r with
      | inr err => (inr err, w2)
      | inl (rh, a) =>
          (inl a, modify s (observe_index (headers.ResponseHeader.Index rh)) w2)
      end.

(** Modelled from the spec: [DoQuery] of pkg/client/session: as a command,
    but a query takes no sequence number. *)
Definition DoQuery (A : Type) (s : nat) (f : session.RequestFn (World Net) A)
  : M (World Net) (res A) :=
  fun w =>
    let sd := get s w in
    if is_closed (state sd) then (inr SessionClosed, w)
    else
      let (r, w1) :=
        attempt (retries sd) s (f (Conn (partition sd)) (header_of sd (sequence sd))) w in
      match r with
      | inr err => (inr err, w1)
      | inl (rh, a) =>
          (inl a, modify s (observe_index (headers.ResponseHeader.Index rh)) w1)
      end.

(** Modelled from the spec: [DoCommandStream] of pkg/client/session.
    Opening a stream is a command: it takes a sequence number, opens the
    streaming call and enters the stream, named by that number, in the
    table. The channel it returns is filled by the relay of the session
    from what [recv] yields, and closed by it when the stream ends. *)
Definition DoCommandStream (S A : Type) (s : nat)
    (open : grpc.ClientConn -> headers.RequestHeader.t -> M (World Net) (res S))
    (recv : S -> M (World Net) (res (headers.ResponseHeader.t * A)))
  : M (World Net) (res (Chan A)) :=
  fun w =>
    let sd := get s w in
    if is_closed (state sd) then (inr SessionClosed, w)
    else
      let seq := sequence sd + 1 in
      let w1 := put s (set_sequence seq sd) w in
      let (r, w2) := open (Conn (partition sd)) (header_of sd seq) w1 in
      match r with
      | inr err => (inr err, w2)
      | inl _ =>
          let w3 := modify s (fun sd => set_streams ((seq, 0) :: streams sd) sd) w2 in
          (inl (mkChan (chans w3)),
           mkWorld (sessions w3) (goroutines w3) (Datatypes.S (chans w3)) (net w3))
      end.

(** Modelled from the spec: [New] of pkg/client/session. The create call
    is issued through the handler; when it fails the session stays
    unopened and the error goes to the caller, otherwise the session is
    open and its keepalive driver runs. *)
Definition New (name : primitive.Name.t) (partition : Partition)
    (handler : session.Handler (World Net) nat) (opts : list Option)
  : M (World Net) (res nat) :=
  fun w =>
    let s := List.length (sessions w) in
    let sd := configure opts
                (mkSess 0 name partition (1 * time.Minute) 0 Opening 0 0 [] false) in
    let w1 := mkWorld (sessions w ++ [sd]) (goroutines w) (chans w) (net w) in
    let (err, w2) := session.Create handler s w1 in
    match err with
    | Some e => (inr e, modify s (set_state Unopened) w2)
    | None =>
        (inl s, modify s (fun sd => set_keepalive true (set_state Open sd)) w2)
    end.

(** Modelled from the spec: [Close] and [Delete] of a [Session] of
    pkg/client/session. From Open the session goes to Closing, the close
    call is issued through the handler, the keepalive driver stops and,
    whether the call succeeded or not, the session ends in [final]. A
    session that is not open has nothing to close: the call fails at once
    and nothing is sent. *)
Definition finish (final : State) (close : nat -> M (World Net) (option error))
    (s : nat) : M (World Net) (option error) :=
  fun w =>
    match state (get s w) with
    | Open =>
        let w1 := modify s (set_state Closing) w in
        let (err, w2) := close s w1 in
        (err, modify s (fun sd => set_state final (set_keepalive false sd)) w2)
    | _ => (Some SessionClosed, w)
    end.

Definition SessionClose (handler : session.Handler (World Net) nat) (s : nat)
  : M (World Net) (option error) :=
  finish Closed (session.Close handler) s.

Definition SessionDelete (handler : session.Handler (World Net) nat) (s : nat)
  : M (World Net) (option error) :=
  finish Deleted (session.Delete handler) s.

#[export] Instance layer : @session.Layer (World Net) transport := {|
  session.Session := nat;
  session.Partition := Partition;
  session.Option := Option;
  session.Timeout := fun s w => (timeout (get s w), w);
  session.New := New;
  session.DoCreate := DoCreate;
  session.DoKeepAlive := DoKeepAlive;
  session.DoClose := DoClose;
  session.DoCommand := DoCommand;
  session.DoQuery := DoQuery;
  session.DoCommandStream := DoCommandStream;
  session.SessionClose := SessionClose;
  session.SessionDelete := SessionDelete
|}.

#[export] Instance runtime : log.Runtime (World Net) := {|
  log.go := fun g w =>
    (tt, mkWorld (sessions w) (g :: goroutines w) (chans w) (net w))
|}.

End Model.
End model.

(** ** Running the goroutine of [Watch] against a stream

    The stream is what the session puts on the channel: the responses still
    to be received, and whether the channel is closed after them. A receive
    takes the next response; on a drained channel it reports the end if the
    channel is closed and otherwise never returns. What the goroutine does
    to the channel of the caller stays visible. *)
Module relay.

(** The goroutine is parked for good. *)
Variant parkE : Type -> Type :=
| Park : parkE void.

Definition Stream : Type := (list api.EventResponse.t * bool)%type.

Definition parked {A : Type} : itree (log.chanE +' parkE) A :=
  Vis (inr1 Park) (fun v : void => match v with end).

Definition receive : log.rangeE ~> Monads.stateT Stream (itree (log.chanE +' parkE)) :=
  fun _ e s =>
    match e with
    | log.StreamRecv _ =>
        match s with
        | (response :: rest, closed) => Ret ((rest, closed), Some response)
        | ([], true) => Ret (([], true), None)
        | ([], false) => parked
        end
    end.

Definition perform : log.chanE ~> Monads.stateT Stream (itree (log.chanE +' parkE)) :=
  fun _ op s => Vis (inl1 op) (fun x => Ret (s, x)).

Definition against : (log.rangeE +' log.chanE) ~>
                     Monads.stateT Stream (itree (log.chanE +' parkE)) :=
  case_ receive perform.

(** The sends that deliver a list of events, in order. *)
Fixpoint deliver (ch : Chan log.Event.t) (events : list log.Event.t)
  : itree (log.chanE +' parkE) unit :=
  match events with
  | [] => Ret tt
  | e :: rest => Vis (inl1 (log.ChSend ch e)) (fun _ => deliver ch rest)
  end.

(** The channel of the caller: what was sent and not yet taken, oldest
    first, and whether it is closed. Sending on a closed channel panics,
    and so does closing it again. *)
Record Channel := mkChannel {
  queue : list log.Event.t;
  isClosed : bool
}.

Variant panicE : Type -> Type :=
| Panic (text : string) : panicE void.

Definition panic {A : Type} (text : string) : itree (panicE +' parkE) A :=
  Vis (inl1 (Panic text)) (fun v : void => match v with end).

Definition operate : log.chanE ~> Monads.stateT Channel (itree (panicE +' parkE)) :=
  fun _ op c =>
    match op with
    | log.ChSend _ e =>
        if isClosed c then panic "send on closed channel"
        else Ret (mkChannel (queue c ++ [e]) false, tt)
    | log.ChClose _ =>
        if isClosed c then panic "close of closed channel"
        else Ret (mkChannel (queue c) true, tt)
    end.

Definition stay : parkE ~> Monads.stateT Channel (itree (panicE +' parkE)) :=
  fun _ e c => Vis (inr1 e) (fun x => Ret (c, x)).

Definition onto : (log.chanE +' parkE) ~>
                  Monads.stateT Channel (itree (panicE +' parkE)) :=
  case_ operate stay.

End relay.

(** ** A scripted partition, for examples

    The network state is the list of the calls served so far, newest
    first, each with the sequence number its header carried. Every call is
    answered from the script. *)
Module demo.

Record Script := mkScript {
  status : api.ResponseStatus;
  version : Z;
  kind : api.EventResponse_Type
}.

Definition ok : Script := mkScript api.ResponseStatus_OK 3 api.EventResponse_APPENDED.

Definition rejecting : Script :=
  mkScript api.ResponseStatus_PRECONDITION_FAILED 3 api.EventResponse_APPENDED.

Definition locking : Script :=
  mkScript api.ResponseStatus_WRITE_LOCK 3 api.EventResponse_APPENDED.

Definition noop : Script := mkScript api.ResponseStatus_NOOP 3 api.EventResponse_NONE.

Definition absent : Script := mkScript api.ResponseStatus_OK 0 api.EventResponse_REMOVED.

Definition Net := list (string * Z).

Definition header : headers.ResponseHeader.t :=
  {| headers.ResponseHeader.SessionID := 7; headers.ResponseHeader.Index := 42 |}.

Definition serve {A : Type} (call : string) (h : headers.RequestHeader.t) (a : A)
  : M Net (res A) :=
  fun n => (inl a, (call, headers.RequestHeader.SequenceNumber h) :: n).

Definition value : bytes := [Byte.x61; Byte.x62].

Definition event (sc : Script) : api.EventResponse.t :=
  {| api.EventResponse.Header := header;
     api.EventResponse.Type_ := kind sc;
     api.EventResponse.Index := 5;
     api.EventResponse.Value := value;
     api.EventResponse.Version := version sc;
     api.EventResponse.Timestamp := 1000 |}.

Definition client (sc : Script) : api.LogServiceClient Net nat :=
  {| api.Create := fun r =>
       serve "Create" (api.CreateRequest.Header r) (api.CreateResponse.mk header);
     api.KeepAlive := fun r =>
       serve "KeepAlive" (api.KeepAliveRequest.Header r) (api.KeepAliveResponse.mk header);
     api.Close := fun r =>
       serve (if api.CloseRequest.Delete r then "Close(delete)" else "Close")
             (api.CloseRequest.Header r) (api.CloseResponse.mk header);
     api.Append := fun r =>
       serve "Append" (api.AppendRequest.Header r)
             (api.AppendResponse.mk header (status sc) 5 4 1000);
     api.Get := fun r =>
       serve "Get" (api.GetRequest.Header r)
             (api.GetResponse.mk header (api.GetRequest.Index r) value (version sc) 1000);
     api.FirstEntry := fun r =>
       serve "FirstEntry" (api.FirstEntryRequest.Header r)
             (api.FirstEntryResponse.mk header 1 value (version sc) 1000);
     api.LastEntry := fun r =>
       serve "LastEntry" (api.LastEntryRequest.Header r)
             (api.LastEntryResponse.mk header 9 value (version sc) 1000);
     api.PrevEntry := fun r =>
       serve "PrevEntry" (api.PrevEntryRequest.Header r)
             (api.PrevEntryResponse.mk header (api.PrevEntryRequest.Index r - 1)
                value (version sc) 1000);
     api.NextEntry := fun r =>
       serve "NextEntry" (api.NextEntryRequest.Header r)
             (api.NextEntryResponse.mk header (api.NextEntryRequest.Index r + 1)
                value (version sc) 1000);
     api.Remove := fun r =>
       serve "Remove" (api.RemoveRequest.Header r)
             (api.RemoveResponse.mk header (status sc) (api.RemoveRequest.Index r)
                value 4);
     api.Size := fun r =>
       serve "Size" (api.SizeRequest.Header r) (api.SizeResponse.mk header 3);
     api.Clear := fun r =>
       serve "Clear" (api.ClearRequest.Header r) (api.ClearResponse.mk header);
     api.Events := fun r =>
       serve "Events" (api.EventRequest.Header r) 0%nat |}.

Definition mapClient (sc : Script) : api.IndexedMapServiceClient Net :=
  {| api.Replace := fun r =>
       serve "Replace" (api.ReplaceRequest.Header r)
             (api.ReplaceResponse.mk header (status sc) 5 value 4) |}.

Definition transport (sc : Script) : grpc.Transport Net :=
  {| grpc.LogService_EventsClient := nat;
     grpc.NewLogServiceClient := fun _ => client sc;
     grpc.NewIndexedMapServiceClient := fun _ => mapClient sc;
     grpc.Recv := fun _ n => (inl (event sc), ("Recv", 0) :: n) |}.

(** The length of the name, as a hash. *)
Definition hash (name : string) : N := N.of_nat (String.length name).

Definition partitions : list model.Partition :=
  [model.mkPartition 0 (grpc.Dial "node-0:5678");
   model.mkPartition 1 (grpc.Dial "node-1:5678");
   model.mkPartition 2 (grpc.Dial "node-2:5678")].

Definition name : primitive.Name.t := primitive.Name.mk "test" "log".

Definition empty : model.World Net := model.mkWorld [] [] 0 [].

(** The world of the examples, with its transport and session layer. *)
Definition W : Type := model.World Net.

Definition T (sc : Script) : grpc.Transport W := @model.transport Net (transport sc).

Definition L (sc : Script) : @session.Layer W (T sc) := @model.layer Net (transport sc).

Section Demo.
Variable sc : Script.

#[local] Existing Instance model.transport.
#[local] Existing Instance model.layer.
#[local] Existing Instance model.runtime.
#[local] Instance scripted : grpc.Transport Net := transport sc.

(** The world after [New] opened the first session, which is session 0,
    and the log on it. *)
Definition opened : model.World Net :=
  snd (log.New hash name partitions [] empty).

Definition theLog : log.log := log.mkLog name 0%nat.

Definition theMap : log.indexedMap := log.mkIndexedMap 0%nat.

End Demo.

End demo.

(** * Properties *)

(** ** Database options *)
Module database_facts.
Import database.

Lemma run_fields opts : forall o,
  run opts o = {| scope := last_scope opts (scope o);
                  sessionTimeout := last_timeout opts (sessionTimeout o) |}.
Proof.
  induction opts as [|opt rest IH]; intros [s t]; simpl.
  - reflexivity.
  - destruct opt; simpl; apply IH.
Qed.

Lemma applyOptions_fields getenv opts :
  applyOptions getenv opts =
  {| scope := last_scope opts (getenv "ATOMIX_SCOPE");
     sessionTimeout := last_timeout opts (1 * time.Minute) |}.
Proof. unfold applyOptions. apply (run_fields opts). Qed.

Lemma last_timeout_none opts : forall d,
  none_of is_timeout opts = true -> last_timeout opts d = d.
Proof.
  induction opts as [|[s|t] rest IH]; intros d H; simpl in *;
    try reflexivity; try discriminate; auto.
Qed.

Lemma last_scope_none opts : forall d,
  none_of is_scope opts = true -> last_scope opts d = d.
Proof.
  induction opts as [|[s|t] rest IH]; intros d H; simpl in *;
    try reflexivity; try discriminate; auto.
Qed.

Lemma last_scope_app pre post : forall d,
  last_scope (pre ++ post) d = last_scope post (last_scope pre d).
Proof. induction pre as [|[s|t] rest IH]; intros d; simpl; auto. Qed.

Lemma last_timeout_app pre post : forall d,
  last_timeout (pre ++ post) d = last_timeout post (last_timeout pre d).
Proof. induction pre as [|[s|t] rest IH]; intros d; simpl; auto. Qed.

(** With a scope option in the list the default is never read. *)
Lemma last_scope_some opts : forall d d',
  none_of is_scope opts = false -> last_scope opts d = last_scope opts d'.
Proof.
  induction opts as [|[s|t] rest IH]; intros d d' H; simpl in *.
  - discriminate.
  - reflexivity.
  - apply IH; exact H.
Qed.

(** C6: whatever the options, [applyOptions] leaves the session timeout at
    one minute (60 000 000 000 ns) when no [WithSessionTimeout] is given;
    [WithScope] writes the scope and nothing else, [WithSessionTimeout]
    the session timeout and nothing else; the options are applied in list
    order, so that the result holds, for each field, the value of the last
    option for it (or the default), an option wins over everything before
    it unless a later option writes the same field, and two neighbouring
    options for distinct fields may be swapped. *)
Theorem applyOptions_resolves (getenv : Environ) (opts : list Option) :
  (none_of is_timeout opts = true ->
   sessionTimeout (applyOptions getenv opts) = 60000000000) /\
  (forall s o, apply (WithScope s) o =
               {| scope := s; sessionTimeout := sessionTimeout o |}) /\
  (forall t o, apply (WithSessionTimeout t) o =
               {| scope := scope o; sessionTimeout := t |}) /\
  applyOptions getenv opts =
    {| scope := last_scope opts (getenv "ATOMIX_SCOPE");
       sessionTimeout := last_timeout opts (1 * time.Minute) |} /\
  (forall s post, none_of is_scope post = true ->
     scope (applyOptions getenv (opts ++ WithScope s :: post)) = s) /\
  (forall t post, none_of is_timeout post = true ->
     sessionTimeout (applyOptions getenv (opts ++ WithSessionTimeout t :: post)) = t) /\
  (forall o1 o2 post, field o1 <> field o2 ->
     applyOptions getenv (opts ++ o1 :: o2 :: post) =
     applyOptions getenv (opts ++ o2 :: o1 :: post)).
Proof.
  repeat split.
  - intros H. rewrite applyOptions_fields. simpl.
    rewrite (last_timeout_none opts _ H). reflexivity.
  - apply applyOptions_fields.
  - intros s post H. rewrite applyOptions_fields. simpl.
    rewrite last_scope_app. simpl. apply last_scope_none, H.
  - intros t post H. rewrite applyOptions_fields. simpl.
    rewrite last_timeout_app. simpl. apply last_timeout_none, H.
  - intros o1 o2 post H. rewrite !applyOptions_fields.
    rewrite !last_scope_app, !last_timeout_app.
    destruct o1, o2; simpl in *; congruence.
Qed.

Lemma applyOptions_resolves_witness :
  let opts := [WithScope "a"; WithScope "b"] in
  let getenv : Environ := fun _ => "env" in
  sessionTimeout (applyOptions getenv opts) = 60000000000 /\
  scope (applyOptions getenv (opts ++ WithScope "c" :: [WithSessionTimeout 5])) = "c" /\
  sessionTimeout
    (applyOptions getenv (opts ++ WithSessionTimeout 9 :: [WithScope "d"])) = 9 /\
  applyOptions getenv (opts ++ WithScope "c" :: WithSessionTimeout 5 :: []) =
  applyOptions getenv (opts ++ WithSessionTimeout 5 :: WithScope "c" :: []).
Proof.
  intros opts getenv.
  destruct (applyOptions_resolves getenv opts) as (H1 & _ & _ & _ & H5 & H6 & H7).
  split; [apply H1; reflexivity|].
  split; [apply H5; reflexivity|].
  split; [apply H6; reflexivity|].
  apply H7. simpl. discriminate.
Defined.

(** C7, as stated, fails: with the same (empty) options list the scope
    follows the environment variable [ATOMIX_SCOPE]. *)
Lemma applyOptions_reads_environment :
  applyOptions env_unset [] <> applyOptions env_prod [] /\
  scope (applyOptions env_unset []) = EmptyString /\
  scope (applyOptions env_prod []) = "prod".
Proof.
  split; [|split]; try reflexivity.
  intros H. apply (f_equal scope) in H. vm_compute in H. discriminate.
Qed.

(** C7, amended: [applyOptions] is a function of the options list and of
    the value of [ATOMIX_SCOPE] alone. Two invocations with the same
    options and the same value of that variable give the same options;
    the session timeout never depends on the environment, and neither does
    the scope once the list has a [WithScope]. *)
Theorem applyOptions_deterministic (env1 env2 : Environ) (opts : list Option) :
  (env1 "ATOMIX_SCOPE" = env2 "ATOMIX_SCOPE" ->
   applyOptions env1 opts = applyOptions env2 opts) /\
  sessionTimeout (applyOptions env1 opts) = sessionTimeout (applyOptions env2 opts) /\
  (none_of is_scope opts = false ->
   applyOptions env1 opts = applyOptions env2 opts).
Proof.
  rewrite !applyOptions_fields. simpl. repeat split.
  - intros ->. reflexivity.
  - intros H. f_equal. apply last_scope_some, H.
Qed.

Lemma applyOptions_deterministic_witness :
  applyOptions env_prod [WithSessionTimeout 5] =
  applyOptions env_other [WithSessionTimeout 5] /\
  applyOptions env_unset [WithScope "s"] = applyOptions env_prod [WithScope "s"].
Proof.
  split.
  - destruct (applyOptions_deterministic env_prod env_other [WithSessionTimeout 5])
      as (H & _ & _).
    apply H. reflexivity.
  - destruct (applyOptions_deterministic env_unset env_prod [WithScope "s"])
      as (_ & _ & H).
    apply H. reflexivity.
Defined.

End database_facts.

(** ** The log, against any session layer *)
Module log_facts.
Import log.

Lemma status_eqb_eq a b : status_eqb a b = true <-> a = b.
Proof.
  destruct a, b; simpl; split; intros H; try congruence; try discriminate.
  - apply Z.eqb_eq in H. congruence.
  - inversion H. apply Z.eqb_refl.
Qed.

Lemma status_eqb_neq a b : a <> b -> status_eqb a b = false.
Proof.
  intros H. destruct (status_eqb a b) eqn:E; [|reflexivity].
  apply status_eqb_eq in E. contradiction.
Qed.

(** Run an operation whose session call is known: unfold it, replace the
    call by its result and let the branches compute. *)
Ltac run_with H := unfold mbind; rewrite H; cbn [mret].

Section AnyLayer.
Context {W : Type} {T : grpc.Transport W} {L : session.Layer W}.

(** C3: when the status of the response is neither OK, nor
    PRECONDITION_FAILED, nor WRITE_LOCK, [Append] returns an entry made of
    the index of the response, the appended value, the previous version and
    the timestamp, with a nil error, while [Remove] and [Replace] return a
    nil entry with a nil error. *)
Theorem fallback_branch :
  (forall (l : log) (value : bytes) (w w' : W) response,
     session.DoCommand (session l) (appendFn value) w = (inl response, w') ->
     api.AppendResponse.Status response <> api.ResponseStatus_OK ->
     api.AppendResponse.Status response <> api.ResponseStatus_PRECONDITION_FAILED ->
     api.AppendResponse.Status response <> api.ResponseStatus_WRITE_LOCK ->
     Append l value w =
     ((Some {| Entry.Index := to_uint64 (api.AppendResponse.Index response);
               Entry.Value := value;
               Entry.Version :=
                 to_uint64 (api.AppendResponse.PreviousVersion response);
               Entry.Timestamp := api.AppendResponse.Timestamp response |},
       None), w')) /\
  (forall (l : log) (index : Z) (opts : list RemoveOption) (w w' : W) response,
     session.DoCommand (session l) (removeFn index opts) w = (inl response, w') ->
     api.RemoveResponse.Status response <> api.ResponseStatus_OK ->
     api.RemoveResponse.Status response <> api.ResponseStatus_PRECONDITION_FAILED ->
     api.RemoveResponse.Status response <> api.ResponseStatus_WRITE_LOCK ->
     Remove l index opts w = ((None, None), w')) /\
  (forall (m : indexedMap) (key : string) (value : bytes)
          (opts : list ReplaceOption) (w w' : W) response,
     session.DoCommand (map_session m) (replaceFn key value opts) w
       = (inl response, w') ->
     api.ReplaceResponse.Status response <> api.ResponseStatus_OK ->
     api.ReplaceResponse.Status response <> api.ResponseStatus_PRECONDITION_FAILED ->
     api.ReplaceResponse.Status response <> api.ResponseStatus_WRITE_LOCK ->
     Replace m key value opts w = ((None, None), w')).
Proof.
  repeat split; intros until response; intros H Hok Hpre Hlock;
    [unfold Append | unfold Remove | unfold Replace];
    run_with H; rewrite !status_eqb_neq by assumption; reflexivity.
Qed.

(** C4: a response with status PRECONDITION_FAILED makes [Append], [Remove]
    and [Replace] return a nil entry and the error "write condition
    failed"; one with status WRITE_LOCK a nil entry and the error "write
    lock failed". The world the call leaves is the one its single
    [DoCommand] left: the command is not issued again. *)
Theorem rejection_surfaced :
  (forall (l : log) (value : bytes) (w w' : W) response,
     session.DoCommand (session l) (appendFn value) w = (inl response, w') ->
     (api.AppendResponse.Status response = api.ResponseStatus_PRECONDITION_FAILED ->
      Append l value w = ((None, Some (errors_New "write condition failed")), w')) /\
     (api.AppendResponse.Status response = api.ResponseStatus_WRITE_LOCK ->
      Append l value w = ((None, Some (errors_New "write lock failed")), w'))) /\
  (forall (l : log) (index : Z) (opts : list RemoveOption) (w w' : W) response,
     session.DoCommand (session l) (removeFn index opts) w = (inl response, w') ->
     (api.RemoveResponse.Status response = api.ResponseStatus_PRECONDITION_FAILED ->
      Remove l index opts w =
      ((None, Some (errors_New "write condition failed")), w')) /\
     (api.RemoveResponse.Status response = api.ResponseStatus_WRITE_LOCK ->
      Remove l index opts w = ((None, Some (errors_New "write lock failed")), w'))) /\
  (forall (m : indexedMap) (key : string) (value : bytes)
          (opts : list ReplaceOption) (w w' : W) response,
     session.DoCommand (map_session m) (replaceFn key value opts) w
       = (inl response, w') ->
     (api.ReplaceResponse.Status response = api.ResponseStatus_PRECONDITION_FAILED ->
      Replace m key value opts w =
      ((None, Some (errors_New "write condition failed")), w')) /\
     (api.ReplaceResponse.Status response = api.ResponseStatus_WRITE_LOCK ->
      Replace m key value opts w =
      ((None, Some (errors_New "write lock failed")), w'))).
Proof.
  repeat split; intros E;
    [unfold Append | unfold Append | unfold Remove | unfold Remove
     | unfold Replace | unfold Replace];
    match goal with H : session.DoCommand _ _ _ = _ |- _ => run_with H end;
    rewrite E; reflexivity.
Qed.

(** C9: when the query succeeds, each of the entry-reading operations
    returns a nil error; it returns a nil entry (or the index 0) when the
    version of the response is 0, and otherwise the entry (or the index)
    read from the response: the entry is non-nil exactly when the version is
    not 0. *)
Theorem absent_entry_is_nil :
  (forall (l : log) (index : Z) (opts : list GetOption) (w w' : W) response,
     session.DoQuery (session l) (getFn index opts) w = (inl response, w') ->
     Get l index opts w =
     ((if Z.eqb (api.GetResponse.Version response) 0 then None
       else Some {| Entry.Index := to_uint64 (api.GetResponse.Index response);
                    Entry.Value := api.GetResponse.Value response;
                    Entry.Version := to_uint64 (api.GetResponse.Version response);
                    Entry.Timestamp := api.GetResponse.Timestamp response |},
       None), w')) /\
  (forall (l : log) (index : Index) (opts : list GetOption) (w w' : W) response,
     session.DoQuery (session l) (getIndexFn index opts) w = (inl response, w') ->
     GetIndex l index opts w =
     ((if Z.eqb (api.GetResponse.Version response) 0 then None
       else Some {| Entry.Index := to_uint64 (api.GetResponse.Index response);
                    Entry.Value := api.GetResponse.Value response;
                    Entry.Version := to_uint64 (api.GetResponse.Version response);
                    Entry.Timestamp := api.GetResponse.Timestamp response |},
       None), w')) /\
  (forall (l : log) (w w' : W) response,
     session.DoQuery (session l) firstEntryFn w = (inl response, w') ->
     FirstIndex l w =
     ((if Z.eqb (api.FirstEntryResponse.Version response) 0 then 0
       else to_uint64 (api.FirstEntryResponse.Index response), None), w') /\
     FirstEntry l w =
     ((if Z.eqb (api.FirstEntryResponse.Version response) 0 then None
       else Some {| Entry.Index := to_uint64 (api.FirstEntryResponse.Index response);
                    Entry.Value := api.FirstEntryResponse.Value response;
                    Entry.Version :=
                      to_uint64 (api.FirstEntryResponse.Version response);
                    Entry.Timestamp := api.FirstEntryResponse.Timestamp response |},
       None), w')) /\
  (forall (l : log) (w w' : W) response,
     session.DoQuery (session l) lastEntryFn w = (inl response, w') ->
     LastIndex l w =
     ((if Z.eqb (api.LastEntryResponse.Version response) 0 then 0
       else to_uint64 (api.LastEntryResponse.Index response), None), w') /\
     LastEntry l w =
     ((if Z.eqb (api.LastEntryResponse.Version response) 0 then None
       else Some {| Entry.Index := to_uint64 (api.LastEntryResponse.Index response);
                    Entry.Value := api.LastEntryResponse.Value response;
                    Entry.Version :=
                      to_uint64 (api.LastEntryResponse.Version response);
                    Entry.Timestamp := api.LastEntryResponse.Timestamp response |},
       None), w')) /\
  (forall (l : log) (index : Index) (w w' : W) response,
     session.DoQuery (session l) (prevEntryFn index) w = (inl response, w') ->
     PrevEntry l index w =
     ((if Z.eqb (api.PrevEntryResponse.Version response) 0 then None
       else Some {| Entry.Index := to_uint64 (api.PrevEntryResponse.Index response);
                    Entry.Value := api.PrevEntryResponse.Value response;
                    Entry.Version :=
                      to_uint64 (api.PrevEntryResponse.Version response);
                    Entry.Timestamp := time.zero |},
       None), w')) /\
  (forall (l : log) (index : Index) (w w' : W) response,
     session.DoQuery (session l) (nextEntryFn index) w = (inl response, w') ->
     NextEntry l index w =
     ((if Z.eqb (api.NextEntryResponse.Version response) 0 then None
       else Some {| Entry.Index := to_uint64 (api.NextEntryResponse.Index response);
                    Entry.Value := api.NextEntryResponse.Value response;
                    Entry.Version :=
                      to_uint64 (api.NextEntryResponse.Version response);
                    Entry.Timestamp := api.NextEntryResponse.Timestamp response |},
       None), w')).
Proof.
  repeat split; intros;
    unfold Get, GetIndex, FirstIndex, FirstEntry, LastIndex, LastEntry,
      PrevEntry, NextEntry;
    match goal with H : session.DoQuery _ _ _ = _ |- _ => run_with H end;
    match goal with |- context [Z.eqb ?v 0] => destruct (Z.eqb v 0) end;
    reflexivity.
Qed.

(** C8: the [Close] and [Delete] handlers both go through [DoClose] with a
    request function that builds a CloseRequest on the header of the
    session and issues the Close call on the connection; the request of
    [Delete] has the delete flag set, that of [Close] has it unset, and
    nothing else differs. *)
Theorem delete_is_close_with_flag (s : session.Session) :
  handler_Close s = session.DoClose s (closeWith false) /\
  handler_Delete s = session.DoClose s (closeWith true) /\
  (forall conn header (w : W),
     closeFn conn header w =
     let (r, w') := api.Close (grpc.NewLogServiceClient conn)
                      (api.CloseRequest.mk header false) w in
     (match r with
      | inr err => inr err
      | inl response => inl (api.CloseResponse.Header response, response)
      end, w')) /\
  (forall conn header (w : W),
     deleteFn conn header w =
     let (r, w') := api.Close (grpc.NewLogServiceClient conn)
                      (api.CloseRequest.mk header true) w in
     (match r with
      | inr err => inr err
      | inl response => inl (api.CloseResponse.Header response, response)
      end, w')).
Proof.
  split; [reflexivity|]. split; [reflexivity|].
  split; intros conn header w; unfold closeFn, deleteFn, mbind;
    destruct (api.Close _ _ w) as [[response|err] w']; reflexivity.
Qed.

Variable hash : string -> N.

Lemma GetPartitionIndex_in_range (name : string) (n : Z) :
  0 < n ->
  util.GetPartitionIndex hash name n = inl (Z.of_N (hash name) mod n) /\
  0 <= Z.of_N (hash name) mod n < n.
Proof.
  intros Hn. unfold util.GetPartitionIndex.
  destruct (Z.leb_spec n 0) as [Hle|Hgt]; [lia|].
  split; [reflexivity | apply Z.mod_pos_bound; exact Hn].
Qed.

Lemma GetPartitionIndex_invalid (name : string) (n : Z) :
  n <= 0 -> util.GetPartitionIndex hash name n = inr InvalidArgument.
Proof.
  intros Hn. unfold util.GetPartitionIndex.
  destruct (Z.leb_spec n 0) as [Hle|Hgt]; [reflexivity | lia].
Qed.

(** C2: with a partition list that is not empty, [New] opens the log on
    the partition whose index is the hash of the name modulo the number of
    partitions, an index below that number; the index depends on the name
    and the number of partitions only, so two calls with the same name and
    as many partitions pick the same index. With a partition count that is
    not positive the router fails with [InvalidArgument], and [New] on an
    empty list returns that error and leaves the world as it was. *)
Theorem New_routes_by_name (name : primitive.Name.t) :
  (forall (partitions : list session.Partition) (opts : list session.Option) (w : W),
     partitions <> [] ->
     exists partition,
       (util.route hash name (List.length partitions) < List.length partitions)%nat /\
       util.GetPartitionIndex hash (primitive.Name.Name name)
         (Z.of_nat (List.length partitions))
         = inl (Z.of_nat (util.route hash name (List.length partitions))) /\
       nth_error partitions (util.route hash name (List.length partitions)) = Some partition /\
       New hash name partitions opts w =
         (Returns (fst (newLog name partition opts w)),
          snd (newLog name partition opts w))) /\
  (forall (ps ps' : list session.Partition),
     List.length ps = List.length ps' ->
     util.route hash name (List.length ps) = util.route hash name (List.length ps')) /\
  (forall n, n <= 0 ->
     util.GetPartitionIndex hash (primitive.Name.Name name) n = inr InvalidArgument) /\
  (forall (opts : list session.Option) (w : W),
     New hash name [] opts w = (Returns (inr InvalidArgument), w)).
Proof.
  split; [|split; [|split]].
  - intros partitions opts w Hne.
    assert (Hlen : 0 < Z.of_nat (List.length partitions)).
    { destruct partitions; [contradiction | simpl; lia]. }
    destruct (GetPartitionIndex_in_range (primitive.Name.Name name) _ Hlen)
      as [Hidx Hrange].
    assert (Hlt : (util.route hash name (List.length partitions) < List.length partitions)%nat).
    { unfold util.route. lia. }
    destruct (nth_error partitions (util.route hash name (List.length partitions)))
      as [partition|] eqn:Hnth.
    2:{ apply nth_error_None in Hnth. lia. }
    exists partition. split; [exact Hlt|]. split.
    { rewrite Hidx. unfold util.route. rewrite Z2Nat.id by lia. reflexivity. }
    split; [reflexivity|].
    unfold New. rewrite Hidx.
    destruct (Z.ltb_spec (Z.of_N (hash (primitive.Name.Name name))
                            mod Z.of_nat (List.length partitions)) 0) as [Hneg|_];
      [lia|].
    fold (util.route hash name (List.length partitions)). rewrite Hnth.
    unfold mbind. destruct (newLog name partition opts w). reflexivity.
  - intros ps ps' E. rewrite E. reflexivity.
  - intros n Hn. apply GetPartitionIndex_invalid, Hn.
  - intros opts w. reflexivity.
Qed.

End AnyLayer.
End log_facts.

(** ** The goroutine of [Watch] *)
Module relay_facts.
Import log relay.
Import ITreeNotations.
Local Open Scope itree_scope.

Section Relay.
Variable stream : Chan api.EventResponse.t.
Variable ch : Chan Event.t.

(** One turn of the loop on a stream that has a response: the event made
    from it is sent, and the loop goes on with the rest. *)
Lemma watchLoop_step response rest closed :
  interp_state against (watchLoop stream ch) (response :: rest, closed) ≈
  Vis (inl1 (ChSend ch (watchEvent response)))
      (fun _ => interp_state against (watchLoop stream ch) (rest, closed)).
Proof.
  unfold watchLoop at 1. rewrite unfold_iter, bind_bind.
  rewrite interp_state_bind, interp_state_trigger. cbn.
  rewrite bind_ret_l. cbn. rewrite !bind_bind.
  rewrite interp_state_bind, interp_state_trigger. cbn.
  unfold perform. rewrite bind_vis.
  apply eqit_Vis. intros [].
  rewrite !bind_ret_l. cbn. rewrite interp_state_tau, tau_eutt.
  reflexivity.
Qed.

Lemma watchLoop_end :
  interp_state against (watchLoop stream ch) ([], true) ≈ Ret (([], true), tt).
Proof.
  unfold watchLoop. rewrite unfold_iter, bind_bind.
  rewrite interp_state_bind, interp_state_trigger. cbn.
  rewrite !bind_ret_l. cbn. rewrite bind_ret_l, interp_state_ret. reflexivity.
Qed.

Lemma watchLoop_parked :
  interp_state against (watchLoop stream ch) ([], false) ≈ parked.
Proof.
  unfold watchLoop. rewrite unfold_iter, bind_bind.
  rewrite interp_state_bind, interp_state_trigger. cbn.
  unfold parked. rewrite bind_vis. apply eqit_Vis. intros [].
Qed.

Lemma parked_bind {A B : Type} (k : A -> itree (chanE +' parkE) B) :
  ITree.bind parked k ≈ parked.
Proof. unfold parked. rewrite bind_vis. apply eqit_Vis. intros []. Qed.

Lemma deliver_bind {B : Type} e rest (k : unit -> itree (chanE +' parkE) B) :
  ITree.bind (deliver ch (e :: rest)) k ≈
  Vis (inl1 (ChSend ch e)) (fun _ => ITree.bind (deliver ch rest) k).
Proof. cbn [deliver]. rewrite bind_vis. reflexivity. Qed.

Lemma watchLoop_closed msgs :
  interp_state against (watchLoop stream ch) (msgs, true) ≈
  (deliver ch (List.map watchEvent msgs) ;; Ret (([], true), tt)).
Proof.
  induction msgs as [|response rest IH].
  - cbn [List.map deliver]. rewrite bind_ret_l. apply watchLoop_end.
  - rewrite watchLoop_step. cbn [List.map]. rewrite deliver_bind.
    apply eqit_Vis. intros _. apply IH.
Qed.

Lemma watchLoop_open msgs :
  interp_state against (watchLoop stream ch) (msgs, false) ≈
  (deliver ch (List.map watchEvent msgs) ;; parked).
Proof.
  induction msgs as [|response rest IH].
  - cbn [List.map deliver]. rewrite bind_ret_l. apply watchLoop_parked.
  - rewrite watchLoop_step. cbn [List.map]. rewrite deliver_bind.
    apply eqit_Vis. intros _. apply IH.
Qed.

Lemma deliver_onto events : forall q (k : itree (chanE +' parkE) (Stream * unit)),
  interp_state onto (deliver ch events ;; k) (mkChannel q false) ≈
  interp_state onto k (mkChannel (q ++ events) false).
Proof.
  induction events as [|e rest IH]; intros q k.
  - cbn [deliver]. rewrite bind_ret_l, app_nil_r. reflexivity.
  - rewrite deliver_bind, interp_state_vis. cbn.
    rewrite bind_ret_l. cbn. rewrite tau_eutt, IH.
    rewrite <- app_assoc. reflexivity.
Qed.

Lemma watchGoroutine_closed msgs :
  interp_state against (watchGoroutine stream ch) (msgs, true) ≈
  (deliver ch (List.map watchEvent msgs) ;;
   Vis (inl1 (ChClose ch)) (fun _ => Ret (([], true), tt))).
Proof.
  unfold watchGoroutine.
  rewrite interp_state_bind, watchLoop_closed, bind_bind.
  apply eutt_eq_bind. intros _. rewrite bind_ret_l. cbn.
  rewrite interp_state_trigger. cbn. unfold perform.
  apply eqit_Vis. intros []. reflexivity.
Qed.

Lemma watchGoroutine_open msgs :
  interp_state against (watchGoroutine stream ch) (msgs, false) ≈
  (deliver ch (List.map watchEvent msgs) ;; parked).
Proof.
  unfold watchGoroutine.
  rewrite interp_state_bind, watchLoop_open, bind_bind.
  apply eutt_eq_bind. intros _. apply parked_bind.
Qed.

Lemma watchGoroutine_fills msgs q :
  interp_state onto
    (interp_state against (watchGoroutine stream ch) (msgs, true))
    (mkChannel q false) ≈
  Ret (mkChannel (q ++ List.map watchEvent msgs) true, (([], true), tt)).
Proof.
  rewrite watchGoroutine_closed, deliver_onto.
  rewrite interp_state_vis. cbn. rewrite bind_ret_l. cbn.
  rewrite tau_eutt, interp_state_ret. reflexivity.
Qed.

Context {W : Type} {T : grpc.Transport W} {L : session.Layer W} {R : Runtime W}.

(** C5: [Watch] starts one goroutine, on the stream its session returned and
    the channel of its caller, and none when the session returned an error.
    Run against a stream that carries [msgs] and is then closed, the
    goroutine sends the event of each response, one send per response and in
    the order of the stream, then closes the channel, once, and ends: a
    channel that was open and held [q] ends up closed and holding [q]
    followed by the events, without a panic. Against a stream that carries
    [msgs] and stays open it sends the same events and then waits on the
    stream for good: it does not close the channel. *)
Theorem watch_delivers_in_order (msgs : list api.EventResponse.t) :
  (forall (l : log) (opts : list WatchOption) (w : W),
     Watch l ch opts w =
     match session.DoCommandStream (session l) (watchOpenFn opts)
             (watchRecvFn opts) w with
     | (inr err, w') => (Some err, w')
     | (inl events, w') => (None, snd (go (watchGoroutine events ch) w'))
     end) /\
  interp_state against (watchGoroutine stream ch) (msgs, true) ≈
    (deliver ch (List.map watchEvent msgs) ;;
     Vis (inl1 (ChClose ch)) (fun _ => Ret (([], true), tt))) /\
  (forall q,
     interp_state onto
       (interp_state against (watchGoroutine stream ch) (msgs, true))
       (mkChannel q false) ≈
     Ret (mkChannel (q ++ List.map watchEvent msgs) true, (([], true), tt))) /\
  interp_state against (watchGoroutine stream ch) (msgs, false) ≈
    (deliver ch (List.map watchEvent msgs) ;; parked).
Proof.
  split; [|split; [|split]].
  - intros l opts w. unfold Watch, mbind.
    destruct (session.DoCommandStream _ _ _ w) as [[s|err] w']; cbn [mret].
    + destruct (go (watchGoroutine s ch) w') as [[] w'']. reflexivity.
    + reflexivity.
  - apply watchGoroutine_closed.
  - intros q. apply watchGoroutine_fills.
  - apply watchGoroutine_open.
Qed.

(** What [Watch] does with the stream of its session: it starts the
    goroutine on it, and starts none when the session gave an error. *)
Lemma Watch_starts_goroutine (l : log) (opts : list WatchOption) (w : W) :
  Watch l ch opts w =
  match session.DoCommandStream (session l) (watchOpenFn opts)
          (watchRecvFn opts) w with
  | (inr err, w') => (Some err, w')
  | (inl events, w') => (None, snd (go (watchGoroutine events ch) w'))
  end.
Proof.
  unfold Watch, mbind.
  destruct (session.DoCommandStream _ _ _ w) as [[s|err] w']; cbn [mret].
  - destruct (go (watchGoroutine s ch) w') as [[] w'']. reflexivity.
  - reflexivity.
Qed.

(** One response on the stream: the goroutine sends its event and goes on
    as the goroutine on the rest of the stream. *)
Lemma watchGoroutine_step response rest closed :
  interp_state against (watchGoroutine stream ch) (response :: rest, closed) ≈
  Vis (inl1 (ChSend ch (watchEvent response)))
      (fun _ => interp_state against (watchGoroutine stream ch) (rest, closed)).
Proof.
  unfold watchGoroutine. rewrite interp_state_bind, watchLoop_step, bind_vis.
  apply eqit_Vis. intros _. rewrite interp_state_bind. reflexivity.
Qed.

(** C10: [Watch] starts its goroutine on the stream of the session, and
    for every response the goroutine receives from that stream, whatever
    the type of the response, it sends one event to the channel of the
    caller and goes on with the rest of the stream: nothing is filtered
    out, so that on a stream that ends the channel, open and holding [q]
    before, holds [q] followed by one event per response, in order, and is
    closed. The event has type [EventAppended] for APPENDED,
    [EventRemoved] for REMOVED and [EventNone], the empty string, for NONE
    and for every other value of the type; its entry carries the index,
    value, version and timestamp of the response. *)
Theorem watch_forwards_every_message (response : api.EventResponse.t)
    (rest : list api.EventResponse.t) (closed : bool) :
  (forall (l : log) (opts : list WatchOption) (w : W),
     Watch l ch opts w =
     match session.DoCommandStream (session l) (watchOpenFn opts)
             (watchRecvFn opts) w with
     | (inr err, w') => (Some err, w')
     | (inl events, w') => (None, snd (go (watchGoroutine events ch) w'))
     end) /\
  interp_state against (watchGoroutine stream ch) (response :: rest, closed) ≈
    Vis (inl1 (ChSend ch (watchEvent response)))
        (fun _ => interp_state against (watchGoroutine stream ch) (rest, closed)) /\
  interp_state against (watchLoop stream ch) (response :: rest, closed) ≈
    Vis (inl1 (ChSend ch (watchEvent response)))
        (fun _ => interp_state against (watchLoop stream ch) (rest, closed)) /\
  (forall q,
     interp_state onto
       (interp_state against (watchGoroutine stream ch) (response :: rest, true))
       (mkChannel q false) ≈
     Ret (mkChannel (q ++ watchEvent response :: List.map watchEvent rest) true,
          (([], true), tt))) /\
  List.length (List.map watchEvent (response :: rest))
    = List.length (response :: rest) /\
  Event.Type_ (watchEvent response) =
    match api.EventResponse.Type_ response with
    | api.EventResponse_NONE => EventNone
    | api.EventResponse_APPENDED => EventAppended
    | api.EventResponse_REMOVED => EventRemoved
    | api.EventResponse_other _ => EventNone
    end /\
  EventNone = EmptyString /\
  Event.Entry (watchEvent response) =
    Some {| Entry.Index := to_uint64 (api.EventResponse.Index response);
            Entry.Value := api.EventResponse.Value response;
            Entry.Version := to_uint64 (api.EventResponse.Version response);
            Entry.Timestamp := api.EventResponse.Timestamp response |}.
Proof.
  split; [apply Watch_starts_goroutine|].
  split; [apply watchGoroutine_step|].
  split; [apply watchLoop_step|].
  split; [intros q; apply (watchGoroutine_fills (response :: rest) q)|].
  split; [apply length_map|].
  split; [|split; reflexivity].
  unfold watchEvent. destruct (api.EventResponse.Type_ response); reflexivity.
Qed.

End Relay.

(** Three responses, then the end of the stream: the caller finds three
    events on its channel, in order, and the channel closed. *)
Example three_events_then_close :
  let stream := mkChan 0%nat in
  let ch := mkChan 1%nat in
  let r1 := api.EventResponse.mk demo.header api.EventResponse_NONE 0 [] 0 10 in
  let r2 := api.EventResponse.mk demo.header api.EventResponse_APPENDED 1 demo.value 1 20 in
  let r3 := api.EventResponse.mk demo.header api.EventResponse_REMOVED 1 demo.value 1 30 in
  interp_state onto
    (interp_state against (watchGoroutine stream ch) ([r1; r2; r3], true))
    (mkChannel [] false) ≈
  Ret (mkChannel
         [Event.mk "" (Some (Entry.mk 0 0 [] 10));
          Event.mk "appended" (Some (Entry.mk 1 1 demo.value 20));
          Event.mk "removed" (Some (Entry.mk 1 1 demo.value 30))] true,
       (([], true), tt)).
Proof. intros stream ch r1 r2 r3. apply watchGoroutine_fills. Qed.

End relay_facts.

(** ** The same, run on the scripted partition *)
Module log_examples.
Import log.

Lemma fallback_branch_witness :
  Append (demo.theLog demo.noop) demo.value (demo.opened demo.noop) =
  ((Some (Entry.mk 5 4 demo.value 1000), None),
   snd (session.DoCommand (Layer := demo.L demo.noop) 0%nat (appendFn demo.value)
          (demo.opened demo.noop))) /\
  Remove (demo.theLog demo.noop) 5 [] (demo.opened demo.noop) =
  ((None, None),
   snd (session.DoCommand (Layer := demo.L demo.noop) 0%nat (removeFn 5 [])
          (demo.opened demo.noop))) /\
  Replace (demo.theMap demo.noop) "k" demo.value [] (demo.opened demo.noop) =
  ((None, None),
   snd (session.DoCommand (Layer := demo.L demo.noop) 0%nat (replaceFn "k" demo.value [])
          (demo.opened demo.noop))).
Proof.
  destruct (@log_facts.fallback_branch demo.W (demo.T demo.noop) (demo.L demo.noop))
    as (HA & HR & HM).
  split; [|split].
  - apply (HA (demo.theLog demo.noop) demo.value (demo.opened demo.noop) _
              (api.AppendResponse.mk demo.header api.ResponseStatus_NOOP 5 4 1000));
      [vm_compute; reflexivity | discriminate | discriminate | discriminate].
  - apply (HR (demo.theLog demo.noop) 5 [] (demo.opened demo.noop) _
              (api.RemoveResponse.mk demo.header api.ResponseStatus_NOOP 5 demo.value 4));
      [vm_compute; reflexivity | discriminate | discriminate | discriminate].
  - apply (HM (demo.theMap demo.noop) "k" demo.value [] (demo.opened demo.noop) _
              (api.ReplaceResponse.mk demo.header api.ResponseStatus_NOOP 5 demo.value 4));
      [vm_compute; reflexivity | discriminate | discriminate | discriminate].
Defined.

(** A rejected append went to the partition once, under sequence number 1. *)
Example rejected_Append_sent_once :
  model.net (snd (Append (demo.theLog demo.rejecting) demo.value
                    (demo.opened demo.rejecting))) =
  [("Append", 1); ("Create", 0)].
Proof. reflexivity. Qed.

Lemma rejection_surfaced_witness :
  Append (demo.theLog demo.rejecting) demo.value (demo.opened demo.rejecting) =
  ((None, Some (errors_New "write condition failed")),
   snd (session.DoCommand (Layer := demo.L demo.rejecting) 0%nat (appendFn demo.value)
          (demo.opened demo.rejecting))) /\
  Append (demo.theLog demo.locking) demo.value (demo.opened demo.locking) =
  ((None, Some (errors_New "write lock failed")),
   snd (session.DoCommand (Layer := demo.L demo.locking) 0%nat (appendFn demo.value)
          (demo.opened demo.locking))) /\
  Remove (demo.theLog demo.rejecting) 5 [] (demo.opened demo.rejecting) =
  ((None, Some (errors_New "write condition failed")),
   snd (session.DoCommand (Layer := demo.L demo.rejecting) 0%nat (removeFn 5 [])
          (demo.opened demo.rejecting))) /\
  Remove (demo.theLog demo.locking) 5 [] (demo.opened demo.locking) =
  ((None, Some (errors_New "write lock failed")),
   snd (session.DoCommand (Layer := demo.L demo.locking) 0%nat (removeFn 5 [])
          (demo.opened demo.locking))) /\
  Replace (demo.theMap demo.rejecting) "k" demo.value [] (demo.opened demo.rejecting) =
  ((None, Some (errors_New "write condition failed")),
   snd (session.DoCommand (Layer := demo.L demo.rejecting) 0%nat (replaceFn "k" demo.value [])
          (demo.opened demo.rejecting))) /\
  Replace (demo.theMap demo.locking) "k" demo.value [] (demo.opened demo.locking) =
  ((None, Some (errors_New "write lock failed")),
   snd (session.DoCommand (Layer := demo.L demo.locking) 0%nat (replaceFn "k" demo.value [])
          (demo.opened demo.locking))).
Proof.
  split.
  { destruct (@log_facts.rejection_surfaced demo.W (demo.T demo.rejecting) (demo.L demo.rejecting))
        as (HA & HR & HM).
      apply (proj1 (HA (demo.theLog demo.rejecting) demo.value (demo.opened demo.rejecting) _
                      (api.AppendResponse.mk demo.header api.ResponseStatus_PRECONDITION_FAILED 5 4 1000)
                      ltac:(vm_compute; reflexivity)));
        reflexivity. }
  split.
  { destruct (@log_facts.rejection_surfaced demo.W (demo.T demo.locking) (demo.L demo.locking))
        as (HA & HR & HM).
      apply (proj2 (HA (demo.theLog demo.locking) demo.value (demo.opened demo.locking) _
                      (api.AppendResponse.mk demo.header api.ResponseStatus_WRITE_LOCK 5 4 1000)
                      ltac:(vm_compute; reflexivity)));
        reflexivity. }
  split.
  { destruct (@log_facts.rejection_surfaced demo.W (demo.T demo.rejecting) (demo.L demo.rejecting))
        as (HA & HR & HM).
      apply (proj1 (HR (demo.theLog demo.rejecting) 5 [] (demo.opened demo.rejecting) _
                      (api.RemoveResponse.mk demo.header api.ResponseStatus_PRECONDITION_FAILED 5 demo.value 4)
                      ltac:(vm_compute; reflexivity)));
        reflexivity. }
  split.
  { destruct (@log_facts.rejection_surfaced demo.W (demo.T demo.locking) (demo.L demo.locking))
        as (HA & HR & HM).
      apply (proj2 (HR (demo.theLog demo.locking) 5 [] (demo.opened demo.locking) _
                      (api.RemoveResponse.mk demo.header api.ResponseStatus_WRITE_LOCK 5 demo.value 4)
                      ltac:(vm_compute; reflexivity)));
        reflexivity. }
  split.
  { destruct (@log_facts.rejection_surfaced demo.W (demo.T demo.rejecting) (demo.L demo.rejecting))
        as (HA & HR & HM).
      apply (proj1 (HM (demo.theMap demo.rejecting) "k" demo.value [] (demo.opened demo.rejecting) _
                      (api.ReplaceResponse.mk demo.header api.ResponseStatus_PRECONDITION_FAILED 5 demo.value 4)
                      ltac:(vm_compute; reflexivity)));
        reflexivity. }
  destruct (@log_facts.rejection_surfaced demo.W (demo.T demo.locking) (demo.L demo.locking))
    as (HA & HR & HM).
  apply (proj2 (HM (demo.theMap demo.locking) "k" demo.value [] (demo.opened demo.locking) _
                  (api.ReplaceResponse.mk demo.header api.ResponseStatus_WRITE_LOCK 5 demo.value 4)
                  ltac:(vm_compute; reflexivity)));
    reflexivity.
Defined.

Lemma absent_entry_is_nil_witness :
  Get (demo.theLog demo.absent) 5 [] (demo.opened demo.absent) =
  ((None, None),
   snd (session.DoQuery (Layer := demo.L demo.absent) 0%nat (getFn 5 []) (demo.opened demo.absent))) /\
  Get (demo.theLog demo.ok) 5 [] (demo.opened demo.ok) =
  ((Some (Entry.mk 5 3 demo.value 1000), None),
   snd (session.DoQuery (Layer := demo.L demo.ok) 0%nat (getFn 5 []) (demo.opened demo.ok))) /\
  GetIndex (demo.theLog demo.absent) 5 [] (demo.opened demo.absent) =
  ((None, None),
   snd (session.DoQuery (Layer := demo.L demo.absent) 0%nat (getIndexFn 5 []) (demo.opened demo.absent))) /\
  GetIndex (demo.theLog demo.ok) 5 [] (demo.opened demo.ok) =
  ((Some (Entry.mk 5 3 demo.value 1000), None),
   snd (session.DoQuery (Layer := demo.L demo.ok) 0%nat (getIndexFn 5 []) (demo.opened demo.ok))) /\
  FirstIndex (demo.theLog demo.absent) (demo.opened demo.absent) =
  ((0, None),
   snd (session.DoQuery (Layer := demo.L demo.absent) 0%nat (firstEntryFn) (demo.opened demo.absent))) /\
  FirstIndex (demo.theLog demo.ok) (demo.opened demo.ok) =
  ((1, None),
   snd (session.DoQuery (Layer := demo.L demo.ok) 0%nat (firstEntryFn) (demo.opened demo.ok))) /\
  FirstEntry (demo.theLog demo.absent) (demo.opened demo.absent) =
  ((None, None),
   snd (session.DoQuery (Layer := demo.L demo.absent) 0%nat (firstEntryFn) (demo.opened demo.absent))) /\
  FirstEntry (demo.theLog demo.ok) (demo.opened demo.ok) =
  ((Some (Entry.mk 1 3 demo.value 1000), None),
   snd (session.DoQuery (Layer := demo.L demo.ok) 0%nat (firstEntryFn) (demo.opened demo.ok))) /\
  LastIndex (demo.theLog demo.absent) (demo.opened demo.absent) =
  ((0, None),
   snd (session.DoQuery (Layer := demo.L demo.absent) 0%nat (lastEntryFn) (demo.opened demo.absent))) /\
  LastIndex (demo.theLog demo.ok) (demo.opened demo.ok) =
  ((9, None),
   snd (session.DoQuery (Layer := demo.L demo.ok) 0%nat (lastEntryFn) (demo.opened demo.ok))) /\
  LastEntry (demo.theLog demo.absent) (demo.opened demo.absent) =
  ((None, None),
   snd (session.DoQuery (Layer := demo.L demo.absent) 0%nat (lastEntryFn) (demo.opened demo.absent))) /\
  LastEntry (demo.theLog demo.ok) (demo.opened demo.ok) =
  ((Some (Entry.mk 9 3 demo.value 1000), None),
   snd (session.DoQuery (Layer := demo.L demo.ok) 0%nat (lastEntryFn) (demo.opened demo.ok))) /\
  PrevEntry (demo.theLog demo.absent) 5 (demo.opened demo.absent) =
  ((None, None),
   snd (session.DoQuery (Layer := demo.L demo.absent) 0%nat (prevEntryFn 5) (demo.opened demo.absent))) /\
  PrevEntry (demo.theLog demo.ok) 5 (demo.opened demo.ok) =
  ((Some (Entry.mk 4 3 demo.value 0), None),
   snd (session.DoQuery (Layer := demo.L demo.ok) 0%nat (prevEntryFn 5) (demo.opened demo.ok))) /\
  NextEntry (demo.theLog demo.absent) 5 (demo.opened demo.absent) =
  ((None, None),
   snd (session.DoQuery (Layer := demo.L demo.absent) 0%nat (nextEntryFn 5) (demo.opened demo.absent))) /\
  NextEntry (demo.theLog demo.ok) 5 (demo.opened demo.ok) =
  ((Some (Entry.mk 6 3 demo.value 1000), None),
   snd (session.DoQuery (Layer := demo.L demo.ok) 0%nat (nextEntryFn 5) (demo.opened demo.ok))).
Proof.
  split.
  { destruct (@log_facts.absent_entry_is_nil demo.W (demo.T demo.absent) (demo.L demo.absent))
        as (HG & HGI & HF & HL & HP & HN).
      apply ((HG (demo.theLog demo.absent) 5 [] (demo.opened demo.absent) _
               (api.GetResponse.mk demo.header 5 demo.value 0 1000)
               ltac:(vm_compute; reflexivity))). }
  split.
  { destruct (@log_facts.absent_entry_is_nil demo.W (demo.T demo.ok) (demo.L demo.ok))
        as (HG & HGI & HF & HL & HP & HN).
      apply ((HG (demo.theLog demo.ok) 5 [] (demo.opened demo.ok) _
               (api.GetResponse.mk demo.header 5 demo.value 3 1000)
               ltac:(vm_compute; reflexivity))). }
  split.
  { destruct (@log_facts.absent_entry_is_nil demo.W (demo.T demo.absent) (demo.L demo.absent))
        as (HG & HGI & HF & HL & HP & HN).
      apply ((HGI (demo.theLog demo.absent) 5 [] (demo.opened demo.absent) _
               (api.GetResponse.mk demo.header 5 demo.value 0 1000)
               ltac:(vm_compute; reflexivity))). }
  split.
  { destruct (@log_facts.absent_entry_is_nil demo.W (demo.T demo.ok) (demo.L demo.ok))
        as (HG & HGI & HF & HL & HP & HN).
      apply ((HGI (demo.theLog demo.ok) 5 [] (demo.opened demo.ok) _
               (api.GetResponse.mk demo.header 5 demo.value 3 1000)
               ltac:(vm_compute; reflexivity))). }
  split.
  { destruct (@log_facts.absent_entry_is_nil demo.W (demo.T demo.absent) (demo.L demo.absent))
        as (HG & HGI & HF & HL & HP & HN).
      apply (proj1 (HF (demo.theLog demo.absent) (demo.opened demo.absent) _
               (api.FirstEntryResponse.mk demo.header 1 demo.value 0 1000)
               ltac:(vm_compute; reflexivity))). }
  split.
  { destruct (@log_facts.absent_entry_is_nil demo.W (demo.T demo.ok) (demo.L demo.ok))
        as (HG & HGI & HF & HL & HP & HN).
      apply (proj1 (HF (demo.theLog demo.ok) (demo.opened demo.ok) _
               (api.FirstEntryResponse.mk demo.header 1 demo.value 3 1000)
               ltac:(vm_compute; reflexivity))). }
  split.
  { destruct (@log_facts.absent_entry_is_nil demo.W (demo.T demo.absent) (demo.L demo.absent))
        as (HG & HGI & HF & HL & HP & HN).
      apply (proj2 (HF (demo.theLog demo.absent) (demo.opened demo.absent) _
               (api.FirstEntryResponse.mk demo.header 1 demo.value 0 1000)
               ltac:(vm_compute; reflexivity))). }
  split.
  { destruct (@log_facts.absent_entry_is_nil demo.W (demo.T demo.ok) (demo.L demo.ok))
        as (HG & HGI & HF & HL & HP & HN).
      apply (proj2 (HF (demo.theLog demo.ok) (demo.opened demo.ok) _
               (api.FirstEntryResponse.mk demo.header 1 demo.value 3 1000)
               ltac:(vm_compute; reflexivity))). }
  split.
  { destruct (@log_facts.absent_entry_is_nil demo.W (demo.T demo.absent) (demo.L demo.absent))
        as (HG & HGI & HF & HL & HP & HN).
      apply (proj1 (HL (demo.theLog demo.absent) (demo.opened demo.absent) _
               (api.LastEntryResponse.mk demo.header 9 demo.value 0 1000)
               ltac:(vm_compute; reflexivity))). }
  split.
  { destruct (@log_facts.absent_entry_is_nil demo.W (demo.T demo.ok) (demo.L demo.ok))
        as (HG & HGI & HF & HL & HP & HN).
      apply (proj1 (HL (demo.theLog demo.ok) (demo.opened demo.ok) _
               (api.LastEntryResponse.mk demo.header 9 demo.value 3 1000)
               ltac:(vm_compute; reflexivity))). }
  split.
  { destruct (@log_facts.absent_entry_is_nil demo.W (demo.T demo.absent) (demo.L demo.absent))
        as (HG & HGI & HF & HL & HP & HN).
      apply (proj2 (HL (demo.theLog demo.absent) (demo.opened demo.absent) _
               (api.LastEntryResponse.mk demo.header 9 demo.value 0 1000)
               ltac:(vm_compute; reflexivity))). }
  split.
  { destruct (@log_facts.absent_entry_is_nil demo.W (demo.T demo.ok) (demo.L demo.ok))
        as (HG & HGI & HF & HL & HP & HN).
      apply (proj2 (HL (demo.theLog demo.ok) (demo.opened demo.ok) _
               (api.LastEntryResponse.mk demo.header 9 demo.value 3 1000)
               ltac:(vm_compute; reflexivity))). }
  split.
  { destruct (@log_facts.absent_entry_is_nil demo.W (demo.T demo.absent) (demo.L demo.absent))
        as (HG & HGI & HF & HL & HP & HN).
      apply ((HP (demo.theLog demo.absent) 5 (demo.opened demo.absent) _
               (api.PrevEntryResponse.mk demo.header 4 demo.value 0 1000)
               ltac:(vm_compute; reflexivity))). }
  split.
  { destruct (@log_facts.absent_entry_is_nil demo.W (demo.T demo.ok) (demo.L demo.ok))
        as (HG & HGI & HF & HL & HP & HN).
      apply ((HP (demo.theLog demo.ok) 5 (demo.opened demo.ok) _
               (api.PrevEntryResponse.mk demo.header 4 demo.value 3 1000)
               ltac:(vm_compute; reflexivity))). }
  split.
  { destruct (@log_facts.absent_entry_is_nil demo.W (demo.T demo.absent) (demo.L demo.absent))
        as (HG & HGI & HF & HL & HP & HN).
      apply ((HN (demo.theLog demo.absent) 5 (demo.opened demo.absent) _
               (api.NextEntryResponse.mk demo.header 6 demo.value 0 1000)
               ltac:(vm_compute; reflexivity))). }
  destruct (@log_facts.absent_entry_is_nil demo.W (demo.T demo.ok) (demo.L demo.ok))
    as (HG & HGI & HF & HL & HP & HN).
  apply ((HN (demo.theLog demo.ok) 5 (demo.opened demo.ok) _
           (api.NextEntryResponse.mk demo.header 6 demo.value 3 1000)
           ltac:(vm_compute; reflexivity))).
Defined.

Lemma New_routes_by_name_witness :
  (exists partition,
     (util.route demo.hash demo.name 3 < 3)%nat /\
     util.GetPartitionIndex demo.hash "log" 3
       = inl (Z.of_nat (util.route demo.hash demo.name 3)) /\
     nth_error demo.partitions (util.route demo.hash demo.name 3) = Some partition /\
     New (L := demo.L demo.ok) demo.hash demo.name demo.partitions [] demo.empty =
       (Returns (fst (newLog (L := demo.L demo.ok) demo.name partition [] demo.empty)),
        snd (newLog (L := demo.L demo.ok) demo.name partition [] demo.empty))) /\
  util.route demo.hash demo.name (List.length demo.partitions) =
  util.route demo.hash demo.name (List.length (List.rev demo.partitions)) /\
  util.GetPartitionIndex demo.hash "log" (-2) = inr InvalidArgument.
Proof.
  destruct (@log_facts.New_routes_by_name demo.W (demo.T demo.ok) (demo.L demo.ok)
              demo.hash demo.name) as (Hnew & Hsame & Hbad & _).
  split; [|split].
  - apply (Hnew demo.partitions [] demo.empty). discriminate.
  - apply (Hsame demo.partitions (List.rev demo.partitions)). reflexivity.
  - apply (Hbad (-2)). lia.
Defined.

(** The first session of the examples: routed to partition 0, open, with
    the identifier and index of the create response. *)
Example New_opens_session :
  New (L := demo.L demo.ok) demo.hash demo.name demo.partitions [] demo.empty =
  (Returns (inl (demo.theLog demo.ok)),
   model.mkWorld
     [model.mkSess 7 demo.name (model.mkPartition 0 (grpc.Dial "node-0:5678"))
        60000000000 0 model.Open 0 42 [] true]
     [] 0 [("Create", 0)]).
Proof. reflexivity. Qed.

(** A command takes sequence number 1, a query takes none. *)
Example Append_then_Get :
  model.net (snd (Get (demo.theLog demo.ok) 5 []
                    (snd (Append (demo.theLog demo.ok) demo.value
                            (demo.opened demo.ok))))) =
  [("Get", 1); ("Append", 1); ("Create", 0)].
Proof. reflexivity. Qed.

End log_examples.

(** ** The modelled session layer *)
Module model_facts.
Import model.

Section Model.
Context {Net : Type} {T : grpc.Transport Net}.

#[local] Abbreviation World := (model.World Net).








(** *** Attempts: a call that is answered, or fails for good, is made once. *)

Lemma attempt_answered {A : Type} (budget s : nat) (call : M World (res A))
    (w w' : World) (a : A) :
  is_closed (state (get s w)) = false ->
  call w = (inl a, w') ->
  attempt budget s call w = (inl a, w').
Proof. intros Hc H. destruct budget; simpl; rewrite Hc, H; reflexivity. Qed.

Lemma attempt_refused {A : Type} (budget s : nat) (call : M World (res A))
    (w w' : World) (err : error) :
  is_closed (state (get s w)) = false ->
  call w = (inr err, w') ->
  retriable err = false ->
  attempt budget s call w = (inr err, w').
Proof. intros Hc H Hr. destruct budget; simpl; rewrite Hc, H, Hr; reflexivity. Qed.

(** *** A closed session *)






(** *** Closing *)





End Model.


End model_facts.

(** * Further properties of the log *)
Module log_more.
Import log.

Section AnyLayer.
Context {W : Type} {T : grpc.Transport W} {L : session.Layer W} {R : Runtime W}.
Variable hash : string -> N.

(** X1: when the call on the session fails, every operation of the log
    hands that error back unchanged, with a nil entry, the index 0 or the
    length 0, and does nothing more: the world is the one the failed call
    left, and [Watch] starts no goroutine. *)
Theorem session_error_surfaces :
  (forall (l : log) (value : bytes) (w w' : W) (err : error),
     session.DoCommand (session l) (appendFn value) w = (inr err, w') ->
     Append l value w = ((None, Some err), w')) /\
  (forall (l : log) (index : Z) (opts : list GetOption) (w w' : W) (err : error),
     session.DoQuery (session l) (getFn index opts) w = (inr err, w') ->
     Get l index opts w = ((None, Some err), w')) /\
  (forall (l : log) (index : Index) (opts : list GetOption) (w w' : W) (err : error),
     session.DoQuery (session l) (getIndexFn index opts) w = (inr err, w') ->
     GetIndex l index opts w = ((None, Some err), w')) /\
  (forall (l : log) (w w' : W) (err : error),
     session.DoQuery (session l) firstEntryFn w = (inr err, w') ->
     FirstIndex l w = ((0, Some err), w') /\
     FirstEntry l w = ((None, Some err), w')) /\
  (forall (l : log) (w w' : W) (err : error),
     session.DoQuery (session l) lastEntryFn w = (inr err, w') ->
     LastIndex l w = ((0, Some err), w') /\
     LastEntry l w = ((None, Some err), w')) /\
  (forall (l : log) (index : Index) (w w' : W) (err : error),
     session.DoQuery (session l) (prevEntryFn index) w = (inr err, w') ->
     PrevIndex l index w = ((0, Some err), w') /\
     PrevEntry l index w = ((None, Some err), w')) /\
  (forall (l : log) (index : Index) (w w' : W) (err : error),
     session.DoQuery (session l) (nextEntryFn index) w = (inr err, w') ->
     NextIndex l index w = ((0, Some err), w') /\
     NextEntry l index w = ((None, Some err), w')) /\
  (forall (l : log) (index : Z) (opts : list RemoveOption) (w w' : W) (err : error),
     session.DoCommand (session l) (removeFn index opts) w = (inr err, w') ->
     Remove l index opts w = ((None, Some err), w')) /\
  (forall (m : indexedMap) (key : string) (value : bytes) (opts : list ReplaceOption) (w w' : W) (err : error),
     session.DoCommand (map_session m) (replaceFn key value opts) w = (inr err, w') ->
     Replace m key value opts w = ((None, Some err), w')) /\
  (forall (l : log) (w w' : W) (err : error),
     session.DoQuery (session l) sizeFn w = (inr err, w') ->
     Len l w = ((0, Some err), w')) /\
  (forall (l : log) (w w' : W) (err : error),
     session.DoCommand (session l) clearFn w = (inr err, w') ->
     Clear l w = (Some err, w')) /\
  (forall (l : log) (ch : Chan Event.t) (opts : list WatchOption) (w w' : W) (err : error),
     session.DoCommandStream (session l) (watchOpenFn opts) (watchRecvFn opts) w = (inr err, w') ->
     Watch l ch opts w = (Some err, w')).
Proof.
  repeat split; intros;
    unfold Append, Get, GetIndex, FirstIndex, FirstEntry, LastIndex, LastEntry,
      PrevIndex, PrevEntry, NextIndex, NextEntry, Remove, Replace, Len, Clear,
      Watch, mbind;
    match goal with
    | H : _ = (inr _, _) |- _ => rewrite H
    end; reflexivity.
Qed.

(** X2: on a response with status OK, [Append] returns the index of the
    response with the value that was appended and, as version, the index of
    the response header; [Remove] returns the index with the previous value
    and previous version; [Replace] returns the index with the key and the
    new value and, as version, the index of the response header. None of
    the three copies the timestamp, and the error is nil. *)
Theorem write_succeeds :
  (forall (l : log) (value : bytes) (w w' : W) response,
     session.DoCommand (session l) (appendFn value) w = (inl response, w') ->
     api.AppendResponse.Status response = api.ResponseStatus_OK ->
     Append l value w =
     ((Some {| Entry.Index := to_uint64 (api.AppendResponse.Index response);
               Entry.Version :=
                 to_uint64 (headers.ResponseHeader.Index
                              (api.AppendResponse.Header response));
               Entry.Value := value;
               Entry.Timestamp := time.zero |}, None), w')) /\
  (forall (l : log) (index : Z) (opts : list RemoveOption) (w w' : W) response,
     session.DoCommand (session l) (removeFn index opts) w = (inl response, w') ->
     api.RemoveResponse.Status response = api.ResponseStatus_OK ->
     Remove l index opts w =
     ((Some {| Entry.Index := to_uint64 (api.RemoveResponse.Index response);
               Entry.Version :=
                 to_uint64 (api.RemoveResponse.PreviousVersion response);
               Entry.Value := api.RemoveResponse.PreviousValue response;
               Entry.Timestamp := time.zero |}, None), w')) /\
  (forall (m : indexedMap) (key : string) (value : bytes)
          (opts : list ReplaceOption) (w w' : W) response,
     session.DoCommand (map_session m) (replaceFn key value opts) w
       = (inl response, w') ->
     api.ReplaceResponse.Status response = api.ResponseStatus_OK ->
     Replace m key value opts w =
     ((Some {| KeyedEntry.Index := to_uint64 (api.ReplaceResponse.Index response);
               KeyedEntry.Key := key;
               KeyedEntry.Value := value;
               KeyedEntry.Version :=
                 to_uint64 (headers.ResponseHeader.Index
                              (api.ReplaceResponse.Header response));
               KeyedEntry.Timestamp := time.zero |}, None), w')).
Proof.
  repeat split; intros until response; intros H E;
    unfold Append, Remove, Replace, mbind; rewrite H, E; reflexivity.
Qed.

(** X3: when the query succeeds, [PrevIndex] and [NextIndex] return the
    index 0 if the version of the response is 0 and the index of the
    response otherwise, with a nil error. *)
Theorem neighbour_index :
  (forall (l : log) (index : Index) (w w' : W) response,
     session.DoQuery (session l) (prevEntryFn index) w = (inl response, w') ->
     PrevIndex l index w =
     ((if Z.eqb (api.PrevEntryResponse.Version response) 0 then 0
       else to_uint64 (api.PrevEntryResponse.Index response), None), w')) /\
  (forall (l : log) (index : Index) (w w' : W) response,
     session.DoQuery (session l) (nextEntryFn index) w = (inl response, w') ->
     NextIndex l index w =
     ((if Z.eqb (api.NextEntryResponse.Version response) 0 then 0
       else to_uint64 (api.NextEntryResponse.Index response), None), w')).
Proof.
  split; intros l index w w' response H; unfold PrevIndex, NextIndex, mbind;
    rewrite H; cbn [mret];
    match goal with |- context [Z.eqb ?v 0] => destruct (Z.eqb v 0) end;
    reflexivity.
Qed.

(** X4: each index query agrees with its entry query: in the same world,
    [FirstIndex], [LastIndex], [PrevIndex] and [NextIndex] return the index
    of the entry that [FirstEntry], [LastEntry], [PrevEntry] and
    [NextEntry] return, or 0 when that entry is nil, with the same error
    and the same effect on the world. *)
Theorem index_of_entry :
  (forall (l : log) (w : W),
     FirstIndex l w =
     let (r, w') := FirstEntry l w in
     ((match fst r with Some e => Entry.Index e | None => 0 end, snd r), w')) /\
  (forall (l : log) (w : W),
     LastIndex l w =
     let (r, w') := LastEntry l w in
     ((match fst r with Some e => Entry.Index e | None => 0 end, snd r), w')) /\
  (forall (l : log) (index : Index) (w : W),
     PrevIndex l index w =
     let (r, w') := PrevEntry l index w in
     ((match fst r with Some e => Entry.Index e | None => 0 end, snd r), w')) /\
  (forall (l : log) (index : Index) (w : W),
     NextIndex l index w =
     let (r, w') := NextEntry l index w in
     ((match fst r with Some e => Entry.Index e | None => 0 end, snd r), w')).
Proof.
  repeat split; intros;
    unfold FirstIndex, FirstEntry, LastIndex, LastEntry, PrevIndex, PrevEntry,
      NextIndex, NextEntry, mbind;
    match goal with
    | |- context [session.DoQuery ?s ?f ?w] =>
        destruct (session.DoQuery s f w) as [[response|err] w']
    end; cbn [mret];
    try match goal with |- context [Z.eqb ?v 0] => destruct (Z.eqb v 0) end;
    reflexivity.
Qed.

Lemma to_int64_small (x : Z) : 0 <= x < 2 ^ 63 -> to_int64 x = x.
Proof.
  intros H. unfold to_int64.
  rewrite Z.mod_small by (change (2 ^ 64) with (2 ^ 63 + 2 ^ 63); lia). lia.
Qed.

Lemma to_int64_large (x : Z) : 2 ^ 63 <= x < 2 ^ 64 -> to_int64 x = x - 2 ^ 64.
Proof.
  intros H. unfold to_int64.
  replace (x + 2 ^ 63) with (x - 2 ^ 63 + 1 * 2 ^ 64)
    by (change (2 ^ 64) with (2 ^ 63 + 2 ^ 63); lia).
  rewrite Z.mod_add by (compute; discriminate).
  rewrite Z.mod_small by (change (2 ^ 64) with (2 ^ 63 + 2 ^ 63) in *; lia).
  change (2 ^ 64) with (2 ^ 63 + 2 ^ 63). lia.
Qed.

(** X5: [GetIndex] is [Get] at the index read as an int64: for an index
    below 2^63 the two coincide; an index from 2^63 up is asked for as the
    negative number index - 2^64. Read back as an [Index], the int64 gives
    the index again, over the whole range of uint64. *)
Theorem GetIndex_is_Get (l : log) (index : Index) (opts : list GetOption) (w : W) :
  (0 <= index < 2 ^ 63 -> GetIndex l index opts w = Get l index opts w) /\
  (2 ^ 63 <= index < 2 ^ 64 ->
   GetIndex l index opts w = Get l (index - 2 ^ 64) opts w) /\
  (0 <= index < 2 ^ 64 -> to_uint64 (to_int64 index) = index).
Proof.
  assert (E : GetIndex l index opts w = Get l (to_int64 index) opts w)
    by reflexivity.
  split; [|split]; intros H.
  - rewrite E, to_int64_small by exact H. reflexivity.
  - rewrite E, to_int64_large by exact H. reflexivity.
  - destruct (Z.lt_ge_cases index (2 ^ 63)) as [Hs|Hl].
    + rewrite to_int64_small by lia. unfold to_uint64. apply Z.mod_small. lia.
    + rewrite to_int64_large by lia. unfold to_uint64.
      replace (index - 2 ^ 64) with (index + (-1) * 2 ^ 64) by lia.
      rewrite Z.mod_add by (compute; discriminate). apply Z.mod_small. lia.
Qed.

(** X6: a log that [New] returns has the name it was asked for, and its
    session is the one [session.New] opened, with the handler of the
    package, on the partition the router chose, leaving the world as that
    call left it. *)
Theorem New_returns_named_log (name : primitive.Name.t)
    (partitions : list session.Partition) (opts : list session.Option)
    (w w' : W) (l : log) :
  New hash name partitions opts w = (Returns (inl l), w') ->
  Name l = name /\
  exists partition,
    nth_error partitions (util.route hash name (List.length partitions))
      = Some partition /\
    session.New name partition sessionHandler opts w = (inl (session l), w').
Proof.
  unfold New, util.GetPartitionIndex, util.route.
  destruct (Z.of_nat (List.length partitions) <=? 0); [discriminate|].
  destruct (_ <? 0); [discriminate|].
  destruct (nth_error partitions _) as [partition|]; [|discriminate].
  unfold mbind, newLog, mbind.
  destruct (session.New name partition sessionHandler opts w) as [[s|err] w1] eqn:E;
    cbn [mret]; intros H; inversion H; subst.
  split; [reflexivity|]. exists partition. split; [reflexivity | exact E].
Qed.


End AnyLayer.
End log_more.

(** * Further properties of the goroutine of [Watch] *)
Module relay_more.
Import log relay.
Import ITreeNotations.
Local Open Scope itree_scope.

(** X8: the loop works through its stream part by part: on a stream that
    carries [first] and then [later], it sends the events of [first], in
    order, and from there behaves as it does on a stream that carries
    [later] alone, whether the stream is closed in the end or not. *)
Theorem watch_stream_splits (stream : Chan api.EventResponse.t) (ch : Chan Event.t)
    (first later : list api.EventResponse.t) (closed : bool) :
  interp_state against (watchLoop stream ch) ((first ++ later)%list, closed) ≈
  (deliver ch (List.map watchEvent first) ;;
   interp_state against (watchLoop stream ch) (later, closed)).
Proof.
  induction first as [|response rest IH].
  - cbn [app List.map deliver]. rewrite bind_ret_l. reflexivity.
  - cbn [app List.map]. rewrite relay_facts.watchLoop_step.
    rewrite relay_facts.deliver_bind. apply eqit_Vis. intros _. apply IH.
Qed.

End relay_more.

(** * Further properties of the database options *)
Module database_more.
Import database.

Lemma last_scope_idem opts : forall d,
  last_scope opts (last_scope opts d) = last_scope opts d.
Proof. induction opts as [|[s|t] rest IH]; intros d; simpl; auto. Qed.

Lemma last_timeout_idem opts : forall d,
  last_timeout opts (last_timeout opts d) = last_timeout opts d.
Proof. induction opts as [|[s|t] rest IH]; intros d; simpl; auto. Qed.

(** X9: resolving a list of options twice over is resolving it once, and
    the options a resolution gives can be written back as two options that
    resolve to them again, whatever the environment and whatever options
    come first. *)
Theorem applyOptions_settles (getenv getenv' : Environ) (pre opts : list Option) :
  applyOptions getenv (opts ++ opts) = applyOptions getenv opts /\
  applyOptions getenv'
    (pre ++ [WithScope (scope (applyOptions getenv opts));
             WithSessionTimeout (sessionTimeout (applyOptions getenv opts))])
  = applyOptions getenv opts.
Proof.
  rewrite !database_facts.applyOptions_fields.
  rewrite !database_facts.last_scope_app, !database_facts.last_timeout_app.
  split.
  - rewrite last_scope_idem, last_timeout_idem. reflexivity.
  - reflexivity.
Qed.

End database_more.

(** * The further properties, run on the scripted partition *)
Module log_more_examples.
Import log.

Lemma session_error_surfaces_witness :
  let wc := snd (Close (demo.theLog demo.ok) (demo.opened demo.ok)) in
  Append (demo.theLog demo.ok) demo.value wc = ((None, Some SessionClosed), wc) /\
  Get (demo.theLog demo.ok) 5 [] wc = ((None, Some SessionClosed), wc) /\
  GetIndex (demo.theLog demo.ok) 5 [] wc = ((None, Some SessionClosed), wc) /\
  FirstIndex (demo.theLog demo.ok) wc = ((0, Some SessionClosed), wc) /\
  FirstEntry (demo.theLog demo.ok) wc = ((None, Some SessionClosed), wc) /\
  LastIndex (demo.theLog demo.ok) wc = ((0, Some SessionClosed), wc) /\
  LastEntry (demo.theLog demo.ok) wc = ((None, Some SessionClosed), wc) /\
  PrevIndex (demo.theLog demo.ok) 5 wc = ((0, Some SessionClosed), wc) /\
  PrevEntry (demo.theLog demo.ok) 5 wc = ((None, Some SessionClosed), wc) /\
  NextIndex (demo.theLog demo.ok) 5 wc = ((0, Some SessionClosed), wc) /\
  NextEntry (demo.theLog demo.ok) 5 wc = ((None, Some SessionClosed), wc) /\
  Remove (demo.theLog demo.ok) 5 [] wc = ((None, Some SessionClosed), wc) /\
  Replace (demo.theMap demo.ok) "k" demo.value [] wc = ((None, Some SessionClosed), wc) /\
  Len (demo.theLog demo.ok) wc = ((0, Some SessionClosed), wc) /\
  Clear (demo.theLog demo.ok) wc = (Some SessionClosed, wc) /\
  Watch (R := model.runtime) (demo.theLog demo.ok) (mkChan 0%nat) [] wc = (Some SessionClosed, wc).
Proof.
  intros wc.
  destruct (@log_more.session_error_surfaces demo.W (demo.T demo.ok) (demo.L demo.ok)
              model.runtime)
    as (HA & HG & HGI & HF & HLa & HP & HN & HR & HM & HLen & HC & HW).
  split; [apply (HA (demo.theLog demo.ok) demo.value wc wc SessionClosed); vm_compute; reflexivity|].
  split; [apply (HG (demo.theLog demo.ok) 5 [] wc wc SessionClosed); vm_compute; reflexivity|].
  split; [apply (HGI (demo.theLog demo.ok) 5 [] wc wc SessionClosed); vm_compute; reflexivity|].
  split; [apply (HF (demo.theLog demo.ok) wc wc SessionClosed); vm_compute; reflexivity|].
  split; [apply (HF (demo.theLog demo.ok) wc wc SessionClosed); vm_compute; reflexivity|].
  split; [apply (HLa (demo.theLog demo.ok) wc wc SessionClosed); vm_compute; reflexivity|].
  split; [apply (HLa (demo.theLog demo.ok) wc wc SessionClosed); vm_compute; reflexivity|].
  split; [apply (HP (demo.theLog demo.ok) 5 wc wc SessionClosed); vm_compute; reflexivity|].
  split; [apply (HP (demo.theLog demo.ok) 5 wc wc SessionClosed); vm_compute; reflexivity|].
  split; [apply (HN (demo.theLog demo.ok) 5 wc wc SessionClosed); vm_compute; reflexivity|].
  split; [apply (HN (demo.theLog demo.ok) 5 wc wc SessionClosed); vm_compute; reflexivity|].
  split; [apply (HR (demo.theLog demo.ok) 5 [] wc wc SessionClosed); vm_compute; reflexivity|].
  split; [apply (HM (demo.theMap demo.ok) "k" demo.value [] wc wc SessionClosed); vm_compute; reflexivity|].
  split; [apply (HLen (demo.theLog demo.ok) wc wc SessionClosed); vm_compute; reflexivity|].
  split; [apply (HC (demo.theLog demo.ok) wc wc SessionClosed); vm_compute; reflexivity|].
  apply (HW (demo.theLog demo.ok) (mkChan 0%nat) [] wc wc SessionClosed); vm_compute; reflexivity.
Defined.

Lemma write_succeeds_witness :
  Append (demo.theLog demo.ok) demo.value (demo.opened demo.ok) =
  ((Some (Entry.mk 5 42 demo.value 0), None),
   snd (session.DoCommand (Layer := demo.L demo.ok) 0%nat (appendFn demo.value)
          (demo.opened demo.ok))) /\
  Remove (demo.theLog demo.ok) 5 [] (demo.opened demo.ok) =
  ((Some (Entry.mk 5 4 demo.value 0), None),
   snd (session.DoCommand (Layer := demo.L demo.ok) 0%nat (removeFn 5 [])
          (demo.opened demo.ok))) /\
  Replace (demo.theMap demo.ok) "k" demo.value [] (demo.opened demo.ok) =
  ((Some (KeyedEntry.mk 5 "k" demo.value 42 0), None),
   snd (session.DoCommand (Layer := demo.L demo.ok) 0%nat
          (replaceFn "k" demo.value []) (demo.opened demo.ok))).
Proof.
  destruct (@log_more.write_succeeds demo.W (demo.T demo.ok) (demo.L demo.ok))
    as (HA & HR & HM).
  split; [|split].
  - apply (HA (demo.theLog demo.ok) demo.value (demo.opened demo.ok) _
              (api.AppendResponse.mk demo.header api.ResponseStatus_OK 5 4 1000));
      [vm_compute; reflexivity | reflexivity].
  - apply (HR (demo.theLog demo.ok) 5 [] (demo.opened demo.ok) _
              (api.RemoveResponse.mk demo.header api.ResponseStatus_OK 5 demo.value 4));
      [vm_compute; reflexivity | reflexivity].
  - apply (HM (demo.theMap demo.ok) "k" demo.value [] (demo.opened demo.ok) _
              (api.ReplaceResponse.mk demo.header api.ResponseStatus_OK 5 demo.value 4));
      [vm_compute; reflexivity | reflexivity].
Defined.

Lemma neighbour_index_witness :
  PrevIndex (demo.theLog demo.ok) 5 (demo.opened demo.ok) =
  ((4, None),
   snd (session.DoQuery (Layer := demo.L demo.ok) 0%nat (prevEntryFn 5)
          (demo.opened demo.ok))) /\
  NextIndex (demo.theLog demo.absent) 5 (demo.opened demo.absent) =
  ((0, None),
   snd (session.DoQuery (Layer := demo.L demo.absent) 0%nat (nextEntryFn 5)
          (demo.opened demo.absent))).
Proof.
  split.
  - destruct (@log_more.neighbour_index demo.W (demo.T demo.ok) (demo.L demo.ok))
      as (HP & _).
    apply (HP (demo.theLog demo.ok) 5 (demo.opened demo.ok) _
              (api.PrevEntryResponse.mk demo.header 4 demo.value 3 1000)).
    vm_compute; reflexivity.
  - destruct (@log_more.neighbour_index demo.W (demo.T demo.absent)
                (demo.L demo.absent)) as (_ & HN).
    apply (HN (demo.theLog demo.absent) 5 (demo.opened demo.absent) _
              (api.NextEntryResponse.mk demo.header 6 demo.value 0 1000)).
    vm_compute; reflexivity.
Defined.

Lemma GetIndex_is_Get_witness :
  GetIndex (demo.theLog demo.ok) 5 [] (demo.opened demo.ok) =
  Get (demo.theLog demo.ok) 5 [] (demo.opened demo.ok) /\
  GetIndex (demo.theLog demo.ok) (2 ^ 64 - 1) [] (demo.opened demo.ok) =
  Get (demo.theLog demo.ok) (-1) [] (demo.opened demo.ok) /\
  to_uint64 (to_int64 (2 ^ 64 - 1)) = 2 ^ 64 - 1.
Proof.
  split; [|split].
  - apply (proj1 (@log_more.GetIndex_is_Get demo.W (demo.T demo.ok) (demo.L demo.ok)
                    (demo.theLog demo.ok) 5 [] (demo.opened demo.ok))).
    split; easy.
  - apply (proj1 (proj2 (@log_more.GetIndex_is_Get demo.W (demo.T demo.ok)
                           (demo.L demo.ok) (demo.theLog demo.ok) (2 ^ 64 - 1) []
                           (demo.opened demo.ok)))).
    split; easy.
  - apply (proj2 (proj2 (@log_more.GetIndex_is_Get demo.W (demo.T demo.ok)
                           (demo.L demo.ok) (demo.theLog demo.ok) (2 ^ 64 - 1) []
                           (demo.opened demo.ok)))).
    split; easy.
Defined.

Lemma New_returns_named_log_witness :
  Name (demo.theLog demo.ok) = demo.name /\
  exists partition,
    nth_error demo.partitions
      (util.route demo.hash demo.name (List.length demo.partitions))
      = Some partition /\
    session.New (Layer := demo.L demo.ok) demo.name partition sessionHandler []
      demo.empty
    = (inl 0%nat, demo.opened demo.ok).
Proof.
  apply (@log_more.New_returns_named_log demo.W (demo.T demo.ok) (demo.L demo.ok)
           demo.hash demo.name demo.partitions [] demo.empty (demo.opened demo.ok)
           (demo.theLog demo.ok)).
  reflexivity.
Defined.

End log_more_examples.
